(** * zephyr-zenoh-pico-rpc: the schema-driven binding generator and the
    host-side RPC transport, embedded in Rocq.

    Part I embeds the sources: [Util] (src/generator/util.py),
    [GenClientPython] (src/generator/gen_client_python.py),
    [GenServerNanopb] (src/generator/gen_server_nanopb.py) and
    [ZenohRpcClient] (src/tools/rpc/zenoh_rpc_client.py), over [Py] (the
    Python built-ins they call), [Descriptor] (the protobuf descriptors),
    [Decoder] (the varint decoders of the protobuf runtime) and [Wire] (the
    protobuf wire format).  The generators emit program text: [PyCode] and
    [Cpp] pair every emitted line with what it does when the generated
    program runs, so that a generated call or handler can be run here.
    Part II states and proves the properties C1 to C10, and then further
    properties, X1 to X26, of the same sources and of those around them:
    the include paths and the handler registration of the server emitter,
    [ZenohSubscriberClient], [LogSubscriber] and the generated
    [TelemetrySubscriber], the result unpacking of the page emitter
    (src/generator/gen_nicegui.py) and [main] of src/build.py.

    Conventions of the embedding.
    - A Python [str] is a Rocq [string].  Protobuf identifiers, key
      expressions and the emitted program text are ASCII; a non-ASCII [str]
      is represented by its UTF-8 encoding, so that [bytes.decode("utf-8")]
      is a validity check followed by a change of type.
    - A Python [bytes] is a [list Z] of values in [0, 256).
    - A Python [int] is a [Z].
    - A dict is a [gmap], a set a [gset].
    - A call that may raise returns a [result]. *)

From Stdlib Require Import ZArith Lia Bool Ascii.
From stdpp Require Import gmap strings list pretty.

Local Open Scope Z_scope.

(* ===================================================================== *)
(** * Part I: the embedding                                               *)
(* ===================================================================== *)

(** ** Python built-ins used by the sources *)

Module Py.

(** A raised exception: [Exception cls msg] is an instance of the class
    [cls] derived from [Exception] with [str(e) = msg]; [BaseException]
    stands for the classes [except Exception] does not catch
    (KeyboardInterrupt, SystemExit).  [Diverged] is not a Python exception:
    it marks the bound of a loop of the embedding, and no function below
    produces it (see the totality lemmas of Part II). *)
Inductive exn :=
| Exception (cls msg : string)
| BaseException (cls msg : string)
| Diverged.

Definition IndexError : exn := Exception "IndexError" "index out of range".
Definition DecodeError (msg : string) : exn := Exception "DecodeError" msg.
Definition UnicodeDecodeError : exn :=
  Exception "UnicodeDecodeError" "'utf-8' codec can't decode bytes".

(** [isinstance(e, Exception)], the test of [except Exception]. *)
Definition is_Exception (e : exn) : bool :=
  match e with
  | Exception _ _ => true
  | _ => false
  end.

(** [str(e)]. *)
Definition str_of (e : exn) : string :=
  match e with
  | Exception _ msg => msg
  | BaseException _ msg => msg
  | Diverged => ""
  end.

(** Outcome of a Python call: a value or a raised exception. *)
Inductive result (A : Type) :=
| Return (a : A)
| Raise (e : exn).
Arguments Return {A} a.
Arguments Raise {A} e.

Definition bind {A B} (r : result A) (k : A -> result B) : result B :=
  match r with
  | Return a => k a
  | Raise e => Raise e
  end.

(** The call comes to an end: a value or a Python exception. *)
Definition terminates {A} (r : result A) : Prop := r <> Raise Diverged.

(** Truthiness of a [str]: the empty string is falsy. *)
Definition truthy (s : string) : bool :=
  match s with
  | EmptyString => false
  | String _ _ => true
  end.

(** Truthiness of an [Optional[str]]: [None] and [""] are falsy. *)
Definition truthy_opt (o : option string) : bool :=
  match o with
  | None => false
  | Some s => truthy s
  end.

Definition code (c : ascii) : N := N_of_ascii c.

Definition in_range (lo hi : N) (c : ascii) : bool :=
  ((lo <=? code c) && (code c <=? hi))%N.

(** The character classes [A-Z], [a-z] and [0-9] of [re]. *)
Definition is_AZ : ascii -> bool := in_range 65 90.
Definition is_az : ascii -> bool := in_range 97 122.
Definition is_09 : ascii -> bool := in_range 48 57.

(** [.] of [re] (without DOTALL): any character except a newline. *)
Definition is_dot (c : ascii) : bool := negb (code c =? 10)%N.

(** Whitespace as [str.strip()] and [str.split()] see it (ASCII part):
    tab, LF, VT, FF, CR, the separators FS, GS, RS, US, and space. *)
Definition is_space (c : ascii) : bool :=
  in_range 9 13 c || in_range 28 31 c || (code c =? 32)%N.

(** [str.lower()] on one character (its action on ASCII letters). *)
Definition lower_char (c : ascii) : ascii :=
  if is_AZ c then ascii_of_N (code c + 32) else c.

Fixpoint lower (s : string) : string :=
  match s with
  | EmptyString => EmptyString
  | String c tl => String (lower_char c) (lower tl)
  end.

(** [str.upper()] (its action on ASCII letters). *)
Definition upper_char (c : ascii) : ascii :=
  if is_az c then ascii_of_N (code c - 32) else c.

Fixpoint upper (s : string) : string :=
  match s with
  | EmptyString => EmptyString
  | String c tl => String (upper_char c) (upper tl)
  end.

(** Every character of [s] satisfies [p]. *)
Fixpoint all_chars (p : ascii -> bool) (s : string) : bool :=
  match s with
  | EmptyString => true
  | String c tl => p c && all_chars p tl
  end.

(** [s.startswith(p)]. *)
Fixpoint startswith (s p : string) {struct p} : bool :=
  match p, s with
  | EmptyString, _ => true
  | String a p', String b s' => if Ascii.eqb a b then startswith s' p' else false
  | String _ _, EmptyString => false
  end.

(** [p in s] for strings. *)
Fixpoint contains (s p : string) : bool :=
  startswith s p ||
  match s with
  | EmptyString => false
  | String _ tl => contains tl p
  end.

(** [s.endswith(p)]: some suffix of [s] is [p]. *)
Fixpoint endswith (s p : string) : bool :=
  String.eqb s p ||
  match s with
  | EmptyString => false
  | String _ tl => endswith tl p
  end.

(** A matcher tells, for the text starting at the current position,
    whether the pattern matches there, and then how many characters the
    match spans and by what text it is replaced. *)
Definition matcher := string -> option (nat * string).

(** [re.sub] and [str.replace]: scan left to right; at a match emit the
    replacement and resume after the match, else copy one character.
    [skip] counts the characters of the current match still to pass.
    The matchers used here never match the empty string. *)
Fixpoint sub_from (m : matcher) (skip : nat) (s : string) : string :=
  match s with
  | EmptyString => EmptyString
  | String c tl =>
      match skip with
      | S k => sub_from m k tl
      | O =>
          match m s with
          | Some (n, r) => r +:+ sub_from m (Nat.pred n) tl
          | None => String c (sub_from m 0 tl)
          end
      end
  end.

Definition sub (m : matcher) (s : string) : string := sub_from m 0 s.

(** The matcher needs an upper-case letter in second position. *)
Definition needs_AZ (m : matcher) : Prop :=
  forall c u rest, is_AZ u = false -> m (String c (String u rest)) = None.

(** [s.replace(old, new)] for a non-empty [old]. *)
Definition literal (old new : string) : matcher :=
  fun s => if startswith s old then Some (String.length old, new) else None.

Definition replace (s old new : string) : string := sub (literal old new) s.

(** The longest run of [a-z] at the start of [s]: what a greedy
    [[a-z]+] takes. *)
Fixpoint span_az (s : string) : string :=
  match s with
  | EmptyString => EmptyString
  | String c tl => if is_az c then String c (span_az tl) else EmptyString
  end.

(** [s.removesuffix(p)]: [s] without its suffix [p], or [s] itself. *)
Fixpoint removesuffix (s p : string) : string :=
  if String.eqb s p then EmptyString
  else
    match s with
    | EmptyString => EmptyString
    | String c tl => if endswith tl p then String c (removesuffix tl p) else s
    end.

(** [s.split(sep)] for a one-character separator: never empty. *)
Fixpoint split_on (sep : ascii) (s : string) : list string :=
  match s with
  | EmptyString => [EmptyString]
  | String c tl =>
      if Ascii.eqb c sep then EmptyString :: split_on sep tl
      else
        match split_on sep tl with
        | h :: t => String c h :: t
        | [] => [String c EmptyString]
        end
  end.

(** [l[-1]] of a list that is not empty (the result of a split). *)
Definition last_item (l : list string) : string := List.last l EmptyString.

(** [l[-(i+1)]]: the item at distance [i] from the end, if there is one. *)
Definition item_from_end (l : list string) (i : nat) : option string :=
  rev l !! i.

(** [s.lstrip()], [s.rstrip()], [s.strip()]. *)
Fixpoint lstrip (s : string) : string :=
  match s with
  | EmptyString => EmptyString
  | String c tl => if is_space c then lstrip tl else s
  end.

Fixpoint rstrip (s : string) : string :=
  match s with
  | EmptyString => EmptyString
  | String c tl =>
      let r := rstrip tl in
      if is_space c && negb (truthy r) then EmptyString else String c r
  end.

Definition strip (s : string) : string := rstrip (lstrip s).

(** [s.split()]: the maximal runs of characters that are not whitespace. *)
Definition starts_word (s : string) : bool :=
  match s with
  | EmptyString => false
  | String c _ => negb (is_space c)
  end.

Fixpoint split (s : string) : list string :=
  match s with
  | EmptyString => []
  | String c tl =>
      if is_space c then split tl
      else if starts_word tl then
        match split tl with
        | h :: t => String c h :: t
        | [] => [String c EmptyString]
        end
      else String c EmptyString :: split tl
  end.

(** [sep.join(l)]. *)
Definition join (sep : string) (l : list string) : string := String.concat sep l.

(** The double quote, and a text between double quotes. *)
Definition dq : string := String "034"%char EmptyString.
Definition quoted (s : string) : string := dq +:+ s +:+ dq.

(** The line feed. *)
Definition lf : string := String "010"%char EmptyString.

(** The number of leading spaces of a line of Python text; a blank line
    has none and belongs to the block around it. *)
Fixpoint indent (s : string) : option nat :=
  match s with
  | EmptyString => None
  | String c tl =>
      if Ascii.eqb c " "%char then option_map S (indent tl) else Some O
  end.


(** An f-string body is evaluated here when it is made of plain text, of
    the braces [{{] and [}}], and of the one field [{self.device_id}];
    anything else (another field, a quote, a backslash) is not. *)
Definition plain_char (c : ascii) : bool :=
  negb (Ascii.eqb c "{"%char || Ascii.eqb c "}"%char
        || Ascii.eqb c "034"%char || Ascii.eqb c "092"%char).

Fixpoint fstring_from (device_id : string) (skip : nat) (body : string) : option string :=
  match body with
  | EmptyString => Some EmptyString
  | String c tl =>
      match skip with
      | S k => fstring_from device_id k tl
      | O =>
          if startswith body "{self.device_id}" then
            option_map (String.append device_id) (fstring_from device_id 15 tl)
          else if startswith body "{{" || startswith body "}}" then
            option_map (String c) (fstring_from device_id 1 tl)
          else if plain_char c then option_map (String c) (fstring_from device_id 0 tl)
          else None
      end
  end.

Definition fstring (device_id body : string) : option string :=
  fstring_from device_id 0 body.

(** [os.path] on POSIX. *)
Definition isabs (p : string) : bool := startswith p "/".

Definition basename (p : string) : string := last_item (split_on "/"%char p).

(** [p[:i]] with [i] one past the last slash. *)
Fixpoint upto_last_slash (p : string) : string :=
  match p with
  | EmptyString => EmptyString
  | String c tl => if contains p "/" then String c (upto_last_slash tl) else EmptyString
  end.

Fixpoint rstrip_slash (s : string) : string :=
  match s with
  | EmptyString => EmptyString
  | String c tl =>
      let r := rstrip_slash tl in
      if Ascii.eqb c "/"%char && negb (truthy r) then EmptyString else String c r
  end.

Definition dirname (p : string) : string :=
  let head := upto_last_slash p in
  if truthy head && negb (all_chars (Ascii.eqb "/"%char) head)
  then rstrip_slash head else head.

Definition path_join (a b : string) : string :=
  if startswith b "/" then b
  else if negb (truthy a) || endswith a "/" then a +:+ b
  else a +:+ "/" +:+ b.

(** [data[lo:hi]] for [0 <= lo]: the slice is clipped to the buffer. *)
Definition slice (data : list Z) (lo hi : Z) : list Z :=
  take (Z.to_nat (hi - lo)) (drop (Z.to_nat lo) data).

(** [data[pos]] for [0 <= pos]; past the end Python raises IndexError. *)
Definition index (data : list Z) (pos : Z) : result Z :=
  match data !! Z.to_nat pos with
  | Some b => Return b
  | None => Raise IndexError
  end.

(** The ranges the bytes after the leading byte [b] of a UTF-8 sequence
    must lie in (shortest form only, no surrogates, at most U+10FFFF). *)
Definition utf8_lead (b : Z) : option (list (Z * Z)) :=
  if (0 <=? b) && (b <=? 0x7F) then Some []
  else if (0xC2 <=? b) && (b <=? 0xDF) then Some [(0x80, 0xBF)]
  else if b =? 0xE0 then Some [(0xA0, 0xBF); (0x80, 0xBF)]
  else if b =? 0xED then Some [(0x80, 0x9F); (0x80, 0xBF)]
  else if (0xE1 <=? b) && (b <=? 0xEF) then Some [(0x80, 0xBF); (0x80, 0xBF)]
  else if b =? 0xF0 then Some [(0x90, 0xBF); (0x80, 0xBF); (0x80, 0xBF)]
  else if b =? 0xF4 then Some [(0x80, 0x8F); (0x80, 0xBF); (0x80, 0xBF)]
  else if (0xF1 <=? b) && (b <=? 0xF3) then Some [(0x80, 0xBF); (0x80, 0xBF); (0x80, 0xBF)]
  else None.

Fixpoint utf8_valid_from (pending : list (Z * Z)) (bs : list Z) : bool :=
  match bs with
  | [] => match pending with [] => true | _ :: _ => false end
  | b :: tl =>
      match pending with
      | (lo, hi) :: more => (lo <=? b) && (b <=? hi) && utf8_valid_from more tl
      | [] =>
          match utf8_lead b with
          | Some pend => utf8_valid_from pend tl
          | None => false
          end
      end
  end.

Definition utf8_valid (bs : list Z) : bool := utf8_valid_from [] bs.

(** The text whose UTF-8 encoding is [bs]. *)
Definition text_of_bytes (bs : list Z) : string :=
  String.string_of_list_ascii (map (fun b => ascii_of_N (Z.to_N b)) bs).

(** [bs.decode("utf-8")] (strict). *)
Definition decode_utf8 (bs : list Z) : result string :=
  if utf8_valid bs then Return (text_of_bytes bs) else Raise UnicodeDecodeError.

End Py.

(** ** The descriptor model (google.protobuf descriptor_pb2 and plugin_pb2,
    the attributes the generators read) *)

Module Descriptor.

Record FieldDescriptorProto := {
  field_name : string;
  field_number : Z;
  field_type : Z
}.

(** [msg_options] is [msg.options.SerializeToString()]. *)
Record DescriptorProto := {
  msg_name : string;
  msg_field : list FieldDescriptorProto;
  msg_options : list Z
}.

Record MethodDescriptorProto := {
  method_name : string;
  input_type : string;
  output_type : string
}.

Record ServiceDescriptorProto := {
  service_name : string;
  service_method : list MethodDescriptorProto
}.

Record FileDescriptorProto := {
  file_name : string;
  package : string;
  message_type : list DescriptorProto;
  service : list ServiceDescriptorProto;
  extension : list FieldDescriptorProto
}.

Record CodeGeneratorRequest := {
  file_to_generate : list string;
  parameter : string;
  proto_file : list FileDescriptorProto
}.

End Descriptor.

(** ** google.protobuf.internal.decoder: the varint decoders util.py calls *)

Module Decoder.
Import Py.

Definition too_many_bytes : exn :=
  DecodeError "Too many bytes when decoding varint.".

(** Modelled from the spec: [decoder._DecodeVarint32] and
    [decoder._DecodeVarint64] of the protobuf runtime, which is not among
    the sources: the "decode a varint" of the specification, done as the
    runtime's [_VarintDecoder(mask)] does it, with masks of 32 and of 64
    bits.  The loop makes at most ten rounds, since [shift] grows by 7 and
    the loop raises once it reaches 64. *)
Fixpoint varint_loop (rounds : nat) (mask : Z) (buffer : list Z)
    (pos result shift : Z) : Py.result (Z * Z) :=
  match rounds with
  | O => Raise Diverged
  | S rounds' =>
      bind (index buffer pos) (fun b =>
        let result := Z.lor result (Z.shiftl (Z.land b 0x7f) shift) in
        let pos := pos + 1 in
        if Z.land b 0x80 =? 0 then Return (Z.land result mask, pos)
        else
          let shift := shift + 7 in
          if 64 <=? shift then Raise too_many_bytes
          else varint_loop rounds' mask buffer pos result shift)
  end.

Definition VarintDecoder (mask : Z) (buffer : list Z) (pos : Z) : Py.result (Z * Z) :=
  varint_loop 10 mask buffer pos 0 0.

Definition DecodeVarint32 := VarintDecoder (Z.shiftl 1 32 - 1).
Definition DecodeVarint64 := VarintDecoder (Z.shiftl 1 64 - 1).

End Decoder.

(** ** src/generator/util.py *)

Module Util.

(** The pattern ["(.)([A-Z][a-z]+)"] with replacement [r"\1_\2"]. *)
Definition pat_word : Py.matcher :=
  fun s =>
    match s with
    | String c (String u rest) =>
        let run := Py.span_az rest in
        if Py.is_dot c && Py.is_AZ u && Py.truthy run
        then Some (2 + String.length run, String c ("_" +:+ String u run))%nat
        else None
    | _ => None
    end.

(** The pattern ["([a-z0-9])([A-Z])"] with replacement [r"\1_\2"]. *)
Definition pat_hump : Py.matcher :=
  fun s =>
    match s with
    | String c (String u _) =>
        if (Py.is_az c || Py.is_09 c) && Py.is_AZ u
        then Some (2%nat, String c ("_" +:+ String u EmptyString))
        else None
    | _ => None
    end.

Definition to_snake_case (name : string) : string :=
  let s1 := Py.sub pat_word name in
  Py.lower (Py.sub pat_hump s1).

Import Descriptor.

(** The first extension, in file order, whose name ends with
    ["zenoh_key"]; 50001 when there is none. *)
Fixpoint find_in_extensions (exts : list FieldDescriptorProto) : option Z :=
  match exts with
  | [] => None
  | ext :: rest =>
      if Py.endswith (field_name ext) "zenoh_key" then Some (field_number ext)
      else find_in_extensions rest
  end.

Fixpoint find_in_files (files : list FileDescriptorProto) : option Z :=
  match files with
  | [] => None
  | proto_file :: rest =>
      match find_in_extensions (extension proto_file) with
      | Some number => Some number
      | None => find_in_files rest
      end
  end.

Definition find_zenoh_key (request : CodeGeneratorRequest) : Z :=
  match find_in_files (proto_file request) with
  | Some number => number
  | None => 50001
  end.

(** The skip of a field that is not the target, by wire type. *)
Definition skip_field (data : list Z) (wire_type position : Z) : Py.result Z :=
  if wire_type =? 0 then
    Py.bind (Decoder.DecodeVarint64 data position) (fun '(_, position) =>
      Py.Return position)
  else if wire_type =? 1 then Py.Return (position + 8)
  else if wire_type =? 2 then
    Py.bind (Decoder.DecodeVarint32 data position) (fun '(length, position) =>
      Py.Return (position + length))
  else if wire_type =? 5 then Py.Return (position + 4)
  else Py.Return position.

(** The [while position < size] loop of [get_option_value].  Every round
    reads a tag, so [size] rounds are enough. *)
Fixpoint scan (rounds : nat) (data : list Z) (field_number position : Z)
    : Py.result (option string) :=
  match rounds with
  | O => Py.Raise Py.Diverged
  | S rounds' =>
      let size := Z.of_nat (length data) in
      if position <? size then
        Py.bind (Decoder.DecodeVarint32 data position) (fun '(tag, position) =>
          let current_field_number := Z.shiftr tag 3 in
          let wire_type := Z.land tag 0x07 in
          if current_field_number =? field_number then
            if wire_type =? 2 then
              Py.bind (Decoder.DecodeVarint32 data position) (fun '(length, position) =>
                let value_bytes := Py.slice data position (position + length) in
                Py.bind (Py.decode_utf8 value_bytes) (fun s => Py.Return (Some s)))
            else Py.Return None
          else
            Py.bind (skip_field data wire_type position) (fun position =>
              scan rounds' data field_number position))
      else Py.Return None
  end.

(** [data] is [options_obj.SerializeToString()]. *)
Definition get_option_value (data : list Z) (field_number : Z) : Py.result (option string) :=
  scan (S (length data)) data field_number 0.

End Util.

(** ** The protobuf wire format: what [SerializeToString] produces and
    [get_option_value] reads.  A serialized message is a sequence of fields,
    each a varint tag [(number << 3) | wire_type] followed by its value;
    the tags of a group and of its members follow one another alike. *)

Module Wire.

Inductive value :=
| Varint (v : Z)               (* wire type 0 *)
| Fixed64 (bs : list Z)        (* wire type 1 *)
| Bytes (bs : list Z)          (* wire type 2 *)
| StartGroup                   (* wire type 3 *)
| EndGroup                     (* wire type 4 *)
| Fixed32 (bs : list Z).       (* wire type 5 *)

Record field := Field { number : Z; val : value }.

Definition wire_type (v : value) : Z :=
  match v with
  | Varint _ => 0
  | Fixed64 _ => 1
  | Bytes _ => 2
  | StartGroup => 3
  | EndGroup => 4
  | Fixed32 _ => 5
  end.

(** Base-128 little-endian digits, the last one without the high bit. *)
Fixpoint encode_varint_digits (digits : nat) (v : Z) : list Z :=
  match digits with
  | O => []
  | S digits' =>
      if v <? 128 then [v]
      else Z.lor (Z.land v 127) 128 :: encode_varint_digits digits' (Z.shiftr v 7)
  end.

(** A value below [2^64] has at most ten digits. *)
Definition encode_varint (v : Z) : list Z := encode_varint_digits 10 v.

Definition encode_value (v : value) : list Z :=
  match v with
  | Varint x => encode_varint x
  | Fixed64 bs => bs
  | Bytes bs => encode_varint (Z.of_nat (length bs)) ++ bs
  | StartGroup => []
  | EndGroup => []
  | Fixed32 bs => bs
  end.

Definition encode_field (f : field) : list Z :=
  encode_varint (Z.lor (Z.shiftl (number f) 3) (wire_type (val f)))
    ++ encode_value (val f).

Fixpoint serialize (fs : list field) : list Z :=
  match fs with
  | [] => []
  | f :: rest => encode_field f ++ serialize rest
  end.




End Wire.

(** ** src/tools/rpc/zenoh_rpc_client.py *)

Module ZenohRpcClient.

Record RpcResult := {
  success : bool;
  data : list Z;
  error : option string
}.

(** A zenoh reply: [reply.ok] holds a sample, or else [reply.err] is set;
    [err] is the text [f"{reply.err}"]. *)
Inductive Reply :=
| ReplyOk (payload : list Z)
| ReplyErr (err : string).

(** What iterating over the replies of a query yields: a reply and the
    rest, the end of the replies (the query finished or timed out), or an
    exception raised by the transport while waiting. *)
Inductive Replies :=
| Finished
| Next (reply : Reply) (rest : Replies)
| Broken (e : Py.exn).

(** [session.get(key_expr, payload=..., timeout=...)].  The timeout is
    handed over in milliseconds; the session divides by 1000.0. *)
Definition Session := string -> list Z -> Z -> Py.result Replies.

(** The key expression [call] queries. *)
Definition key_expr (device_id service_name method_name : string) : string :=
  if Py.truthy device_id
  then device_id +:+ "/rpc/" +:+ service_name +:+ "/" +:+ method_name
  else "rpc/" +:+ service_name +:+ "/" +:+ method_name.

(** The body of the [try]: the [for] loop returns in its first round. *)
Definition call_try (session : Session) (key : string) (request_data : list Z)
    (timeout_ms : Z) : Py.result RpcResult :=
  Py.bind (session key request_data timeout_ms) (fun replies =>
    match replies with
    | Next reply _ =>
        match reply with
        | ReplyOk payload =>
            Py.Return {| success := true; data := payload; error := None |}
        | ReplyErr err =>
            Py.Return {| success := false; data := [];
                         error := Some ("Reply error: " +:+ err) |}
        end
    | Finished =>
        Py.Return {| success := false; data := []; error := Some "No reply received" |}
    | Broken e => Py.Raise e
    end).

(** [ZenohRpcClient.call], with [except Exception as e]. *)
Definition call (session : Session) (device_id : string)
    (service_name method_name : string) (request_data : list Z) (timeout_ms : Z)
    : Py.result RpcResult :=
  match call_try session (key_expr device_id service_name method_name)
          request_data timeout_ms with
  | Py.Return r => Py.Return r
  | Py.Raise e =>
      if Py.is_Exception e
      then Py.Return {| success := false; data := []; error := Some (Py.str_of e) |}
      else Py.Raise e
  end.

(** The transport that answers every query by raising its key. *)
Definition echo_key : Session := fun key _ _ => Py.Raise (Py.Exception "ZError" key).

End ZenohRpcClient.

(** ** Emitted Python: each line of text with what it does when run *)

Module PyCode.
Import ZenohRpcClient.

Inductive op :=
| Skip                                  (* def line, docstring, blank, logging *)
| IfRequestNone                         (* if request is None: *)
| Construct (cls : string) (kwargs : list string)
                                        (* request = pb.Cls(a=a, b=b) *)
| CallRpc (service method : string)     (* result = self.rpc_client.call(...) *)
| IfSuccess                             (* if result.success: *)
| NewResponse (cls : string)            (* response = pb.Cls() *)
| ParseResponse                         (* response.ParseFromString(result.data) *)
| ReturnMarker (ok : bool)              (* return RpcResponse(...) *)
| ReturnPair (ok with_response : bool)  (* return RpcResponse(...), response|None *)
| SetKeyExpr (body : string)            (* key_expr = f"body" *)
| Subscribe.                            (* self.sub_client.subscribe(key_expr, handler) *)

Record line := Line { op_of : op; text : string }.

(** [RpcResponse(success=..., error=...)]. *)
Record RpcResponse := {
  response_success : bool;
  response_error : option string
}.

(** A message of class [cls] parsed from [data]. *)
Record Message := { cls_of : string; parsed_from : list Z }.

(** What a generated call returns: the marker alone, or the marker with a
    payload slot. *)
Inductive returned :=
| Marker (r : RpcResponse)
| Pair (r : RpcResponse) (payload : option Message).

(** What a generated call meets when run: the request the caller passed
    (serialized) if any, the serialization of the request built from the
    keyword arguments, the transport, and which reply bytes parse. *)
Record env := {
  supplied : option (list Z);
  built : string -> list string -> list Z;
  rpc_call : string -> string -> list Z -> RpcResult;
  parses : string -> list Z -> bool
}.

Record state := {
  request : option (list Z);
  result : option RpcResult;
  response : option Message
}.

Definition AttributeError : Py.exn := Py.Exception "AttributeError" "unset name".

Definition marker (ok : bool) (st : state) : RpcResponse :=
  if ok then {| response_success := true; response_error := None |}
  else {| response_success := false;
          response_error := match result st with Some r => error r | None => None end |}.

(** Runs the lines of a method body.  [skip] holds the indentation of an
    [if] whose condition was false: deeper lines are passed over. *)
Fixpoint run (e : env) (skip : option nat) (st : state) (ls : list line)
    : Py.result (option returned) :=
  match ls with
  | [] => Py.Return None
  | l :: rest =>
      let depth := Py.indent (text l) in
      let passed :=
        match skip, depth with
        | Some d, Some i => (d <? i)%nat
        | Some _, None => true
        | None, _ => false
        end in
      if passed then run e skip st rest
      else
        match op_of l with
        | Skip | SetKeyExpr _ | Subscribe => run e None st rest
        | IfRequestNone =>
            match request st with
            | None => run e None st rest
            | Some _ => run e depth st rest
            end
        | Construct cls kwargs =>
            run e None {| request := Some (built e cls kwargs);
                          result := result st; response := response st |} rest
        | CallRpc service method =>
            match request st with
            | Some data =>
                run e None {| request := request st;
                              result := Some (rpc_call e service method data);
                              response := response st |} rest
            | None => Py.Raise AttributeError
            end
        | IfSuccess =>
            match result st with
            | Some r => if success r then run e None st rest else run e depth st rest
            | None => Py.Raise AttributeError
            end
        | NewResponse cls =>
            run e None {| request := request st; result := result st;
                          response := Some {| cls_of := cls; parsed_from := [] |} |} rest
        | ParseResponse =>
            match result st, response st with
            | Some r, Some m =>
                if parses e (cls_of m) (data r)
                then run e None {| request := request st; result := result st;
                                   response := Some {| cls_of := cls_of m;
                                                       parsed_from := data r |} |} rest
                else Py.Raise (Py.DecodeError "Error parsing message")
            | _, _ => Py.Raise AttributeError
            end
        | ReturnMarker ok => Py.Return (Some (Marker (marker ok st)))
        | ReturnPair ok with_response =>
            Py.Return (Some (Pair (marker ok st)
                               (if with_response then response st else None)))
        end
  end.

(** A call of the generated method. *)
Definition call_method (e : env) (ls : list line) : Py.result (option returned) :=
  run e None {| request := supplied e; result := None; response := None |} ls.



End PyCode.

(** ** src/generator/gen_client_python.py *)

Module GenClientPython.
Import Descriptor PyCode.

(** [TYPE_MAPPING.get(field.type, "Any")], with the numbers of
    [FieldDescriptorProto.Type]. *)
Definition TYPE_MAPPING (t : Z) : string :=
  if t =? 1 then "float"        (* TYPE_DOUBLE *)
  else if t =? 2 then "float"   (* TYPE_FLOAT *)
  else if t =? 5 then "int"     (* TYPE_INT32 *)
  else if t =? 3 then "int"     (* TYPE_INT64 *)
  else if t =? 13 then "int"    (* TYPE_UINT32 *)
  else if t =? 4 then "int"     (* TYPE_UINT64 *)
  else if t =? 8 then "bool"    (* TYPE_BOOL *)
  else if t =? 9 then "str"     (* TYPE_STRING *)
  else if t =? 12 then "bytes"  (* TYPE_BYTES *)
  else "Any".

Definition full_name (package name : string) : string :=
  if Py.truthy package then "." +:+ package +:+ "." +:+ name else "." +:+ name.

Fixpoint message_map_from (package : string) (msgs : list DescriptorProto)
    (msg_map : gmap string DescriptorProto) : gmap string DescriptorProto :=
  match msgs with
  | [] => msg_map
  | msg :: rest =>
      message_map_from package rest (<[full_name package (msg_name msg) := msg]> msg_map)
  end.

Definition get_message_map (proto_file : FileDescriptorProto) : gmap string DescriptorProto :=
  message_map_from (package proto_file) (message_type proto_file) ∅.

(** The fields the call is built from: those of the input message when
    the type resolves, else none. *)
Definition input_fields (msg_map : gmap string DescriptorProto)
    (method : MethodDescriptorProto) : list FieldDescriptorProto :=
  match msg_map !! input_type method with
  | Some input_msg => msg_field input_msg
  | None => []
  end.

Definition field_param (field : FieldDescriptorProto) : string :=
  ", " +:+ field_name field +:+ ": Optional[" +:+ TYPE_MAPPING (field_type field) +:+ "] = None".

Definition field_assign (field : FieldDescriptorProto) : string :=
  field_name field +:+ "=" +:+ field_name field.

Definition arg_list_str (req_cls_name : string) (fields : list FieldDescriptorProto) : string :=
  let base := "self, request: Optional[pb." +:+ req_cls_name +:+ "] = None" in
  match fields with
  | [] => base
  | _ :: _ => base +:+ ", *" +:+ Py.join "" (map field_param fields)
  end.

Definition ret_type (method : MethodDescriptorProto) : string :=
  if Py.endswith (output_type method) "Empty" then "RpcResponse"
  else "tuple[RpcResponse, Optional[pb."
         +:+ Py.last_item (Py.split_on "."%char (output_type method)) +:+ "]]".

(** [generate_code], the body of the loop over the methods of a service:
    the lines of one generated call. *)
Definition emit_method (msg_map : gmap string DescriptorProto)
    (service : ServiceDescriptorProto) (method : MethodDescriptorProto) : list line :=
  let method_snake := Util.to_snake_case (method_name method) in
  let req_cls_name := Py.last_item (Py.split_on "."%char (input_type method)) in
  let fields := input_fields msg_map method in
  let field_assigns := map field_assign fields in
  let is_empty := Py.endswith (output_type method) "Empty" in
  [ Line Skip ("    def " +:+ method_snake +:+ "(" +:+ arg_list_str req_cls_name fields
                 +:+ ") -> " +:+ ret_type method +:+ ":");
    Line Skip ("        " +:+ Py.dq +:+ Py.dq +:+ Py.dq +:+ method_name method
                 +:+ " RPC call." +:+ Py.dq +:+ Py.dq +:+ Py.dq);
    Line IfRequestNone "        if request is None:";
    match field_assigns with
    | _ :: _ =>
        Line (Construct req_cls_name (map field_name fields))
             ("            request = pb." +:+ req_cls_name +:+ "("
                +:+ Py.join ", " field_assigns +:+ ")")
    | [] =>
        Line (Construct req_cls_name []) ("            request = pb." +:+ req_cls_name +:+ "()")
    end;
    Line Skip "";
    Line (CallRpc (service_name service) (method_name method))
         ("        result = self.rpc_client.call(self.SERVICE_NAME, "
            +:+ Py.quoted (method_name method) +:+ ", request.SerializeToString())");
    Line IfSuccess "        if result.success:" ]
  ++ (if is_empty then
        [ Line (ReturnMarker true) "            return RpcResponse(success=True)";
          Line (ReturnMarker false)
               "        return RpcResponse(success=False, error=result.error)" ]
      else
        let resp_cls := Py.last_item (Py.split_on "."%char (output_type method)) in
        [ Line (NewResponse resp_cls) ("            response = pb." +:+ resp_cls +:+ "()");
          Line ParseResponse "            response.ParseFromString(result.data)";
          Line (ReturnPair true true) "            return RpcResponse(success=True), response";
          Line (ReturnPair false false)
               "        return RpcResponse(success=False, error=result.error), None" ])
  ++ [ Line Skip "" ].

Definition emit_service (msg_map : gmap string DescriptorProto)
    (service : ServiceDescriptorProto) : list line :=
  [ Line Skip ("class " +:+ service_name service +:+ "Client:");
    Line Skip ("    SERVICE_NAME = " +:+ Py.quoted (service_name service));
    Line Skip "";
    Line Skip "    def __init__(self, rpc_client: ZenohRpcClient):";
    Line Skip "        self.rpc_client = rpc_client";
    Line Skip "" ]
  ++ concat (map (emit_method msg_map service) (service_method service)).

(** The key suffix of a telemetry message: its custom option when that is
    set and not empty, else the default built from its name. *)
Definition telemetry_key (request : CodeGeneratorRequest) (msg : DescriptorProto)
    : Py.result string :=
  let base_name := Py.replace (msg_name msg) "Telemetry" "" in
  let snake_name := Util.to_snake_case base_name in
  Py.bind (Util.get_option_value (msg_options msg) (Util.find_zenoh_key request))
    (fun zenoh_key =>
       Py.Return (if Py.truthy_opt zenoh_key
                  then default EmptyString zenoh_key
                  else "/telemetry/" +:+ snake_name)).

(** [generate_code], the body of the loop over the telemetry messages:
    the lines of one generated [subscribe_*] method. *)
Definition emit_subscribe (request : CodeGeneratorRequest) (msg : DescriptorProto)
    : Py.result (list line) :=
  let base_name := Py.replace (msg_name msg) "Telemetry" "" in
  let snake_name := Util.to_snake_case base_name in
  Py.bind (telemetry_key request msg) (fun zenoh_key =>
    let type_hint := "Callable[[pb." +:+ msg_name msg +:+ "], None]" in
    let body := "{self.device_id}" +:+ zenoh_key in
    Py.Return
      [ Line Skip ("    def subscribe_" +:+ snake_name +:+ "(self, callback: "
                     +:+ type_hint +:+ "):");
        Line Skip ("        " +:+ Py.dq +:+ Py.dq +:+ Py.dq +:+ "Subscribe to " +:+ snake_name
                     +:+ " telemetry." +:+ Py.dq +:+ Py.dq +:+ Py.dq);
        Line (SetKeyExpr body) ("        key_expr = f" +:+ Py.quoted body);
        Line Skip ("        self.logger.info(f" +:+ Py.quoted "Subscribing to: {key_expr}" +:+ ")");
        Line Skip "";
        Line Skip "        def handler(data: bytes):";
        Line Skip "            try:";
        Line Skip ("                payload = pb." +:+ msg_name msg +:+ "()");
        Line Skip "                payload.ParseFromString(data)";
        Line Skip "                callback(payload)";
        Line Skip "            except Exception as e:";
        Line Skip ("                self.logger.error(f"
                     +:+ Py.quoted ("Failed to parse " +:+ msg_name msg +:+ ": {e}") +:+ ")");
        Line Skip "";
        Line Subscribe "        sub_id = self.sub_client.subscribe(key_expr, handler)";
        Line Skip "        self._sub_ids.append(sub_id)";
        Line Skip "" ]).

Definition telemetry_msgs (proto_file : FileDescriptorProto) : list DescriptorProto :=
  filter (fun m => Py.endswith (msg_name m) "Telemetry" = true) (message_type proto_file).

Fixpoint emit_subscribes (request : CodeGeneratorRequest) (msgs : list DescriptorProto)
    : Py.result (list line) :=
  match msgs with
  | [] => Py.Return []
  | msg :: rest =>
      Py.bind (emit_subscribe request msg) (fun ls =>
        Py.bind (emit_subscribes request rest) (fun ls' => Py.Return (ls ++ ls')))
  end.

Definition emit_telemetry (request : CodeGeneratorRequest) (proto_file : FileDescriptorProto)
    : Py.result (list line) :=
  match telemetry_msgs proto_file with
  | [] => Py.Return []
  | msgs =>
      Py.bind (emit_subscribes request msgs) (fun ls =>
        Py.Return
          ([ Line Skip "class TelemetrySubscriber:";
             Line Skip ("    " +:+ Py.dq +:+ Py.dq +:+ Py.dq
                          +:+ "Subscriber for telemetry data from device."
                          +:+ Py.dq +:+ Py.dq +:+ Py.dq);
             Line Skip "";
             Line Skip "    def __init__(self, sub_client: ZenohSubscriberClient, device_id: str, logger: Optional[logging.Logger] = None):";
             Line Skip "        self.sub_client = sub_client";
             Line Skip "        self.device_id = device_id";
             Line Skip "        self._sub_ids: List[str] = []";
             Line Skip "        self.logger = logger or logging.getLogger(__name__)";
             Line Skip "" ]
           ++ ls
           ++ [ Line Skip "    def unsubscribe_all(self):";
                Line Skip ("        " +:+ Py.dq +:+ Py.dq +:+ Py.dq
                             +:+ "Unsubscribe from all topics." +:+ Py.dq +:+ Py.dq +:+ Py.dq);
                Line Skip "        for sid in self._sub_ids:";
                Line Skip "            self.sub_client.unsubscribe(sid)";
                Line Skip "        self._sub_ids.clear()";
                Line Skip ("        self.logger.info("
                             +:+ Py.quoted "Unsubscribed from all telemetry topics" +:+ ")");
                Line Skip "" ]))
  end.

(** The generated unit of one schema file: its name and its lines. *)
Definition generate_file (request : CodeGeneratorRequest) (proto_file : FileDescriptorProto)
    : Py.result (string * list line) :=
  let msg_map := get_message_map proto_file in
  let filename := Py.replace (Py.basename (file_name proto_file)) ".proto" "_client.py" in
  let pb_import_path :=
    Py.replace (Py.replace (file_name proto_file) ".proto" "_pb2") "/" "." in
  let header :=
    [ Line Skip "import logging";
      Line Skip "from dataclasses import dataclass";
      Line Skip "from typing import Callable, Optional, Tuple, Union, List";
      Line Skip "from .zenoh_rpc_client import ZenohRpcClient, ZenohSubscriberClient, RpcResult, RpcResponse";
      Line Skip ("from . import " +:+ Py.last_item (Py.split_on "."%char pb_import_path)
                   +:+ " as pb");
      Line Skip "";
      Line Skip "" ] in
  Py.bind (emit_telemetry request proto_file) (fun telemetry =>
    Py.Return (filename,
               header ++ concat (map (emit_service msg_map) (service proto_file))
                 ++ telemetry)).

(** [f.content]: the lines joined by line feeds. *)
Definition content (ls : list line) : string := Py.join Py.lf (map text ls).

Definition selected (request : CodeGeneratorRequest) (proto_file : FileDescriptorProto) : bool :=
  bool_decide (file_name proto_file ∈ file_to_generate request)
  && negb (Py.contains (file_name proto_file) "google/protobuf").

Fixpoint generate_files (request : CodeGeneratorRequest) (files : list FileDescriptorProto)
    : Py.result (list (string * string)) :=
  match files with
  | [] => Py.Return []
  | proto_file :: rest =>
      if selected request proto_file then
        Py.bind (generate_file request proto_file) (fun '(name, ls) =>
          Py.bind (generate_files request rest) (fun out =>
            Py.Return ((name, content ls) :: out)))
      else generate_files request rest
  end.

(** [generate_code]: the files of the response. *)
Definition generate_code (request : CodeGeneratorRequest) : Py.result (list (string * string)) :=
  generate_files request (proto_file request).

End GenClientPython.

(** ** Emitted C++: each line of text with what it does when run *)

Module Cpp.

(** Modelled from the spec: [zenoh_rpc::RpcStatus] of zenoh_rpc_channel.h,
    which is not among the sources: success, decode-error, encode-error,
    and whatever other status an implementation propagates. *)
Inductive RpcStatus :=
| OK
| DECODE_ERROR
| ENCODE_ERROR
| OTHER (code : Z).

Definition is_OK (s : RpcStatus) : bool :=
  match s with
  | OK => true
  | _ => false
  end.

Inductive which := Request | Response.

Inductive op :=
| Skip                      (* comment, blank, declaration, LOG_ERR, signature *)
| IfDecodeFails             (* if (!pb_decode(req_stream, T_fields, &request)) { *)
| CallImpl                  (* RpcStatus status = impl_.M(request, &response); *)
| IfStatusNotOk             (* if (status != zenoh_rpc::RpcStatus::OK) { *)
| IfEncodeFails             (* if (!pb_encode(resp_stream, T_fields, &response)) { *)
| Release (w : which)       (* pb_release(T_fields, &request|&response); *)
| ReturnStatus              (* return status; *)
| ReturnConst (s : RpcStatus)
| CloseBrace.               (* } of an if *)

Record line := Line { op_of : op; text : string }.

(** What the handler does, in order. *)
Inductive event :=
| Decode
| Invoke
| Encode
| Released (w : which).

(** What one request meets: whether [pb_decode] succeeds, the status of
    the implementation, whether [pb_encode] succeeds. *)
Record env := {
  decode_ok : bool;
  impl_status : RpcStatus;
  encode_ok : bool
}.

(** Runs the body of a handler: the events in order and the status
    returned.  [skipping] holds inside an [if] whose condition is false. *)
Fixpoint run (e : env) (skipping : bool) (status : option RpcStatus) (ls : list line)
    : list event * option RpcStatus :=
  match ls with
  | [] => ([], None)
  | l :: rest =>
      if skipping then
        match op_of l with
        | CloseBrace => run e false status rest
        | _ => run e true status rest
        end
      else
        match op_of l with
        | Skip | CloseBrace => run e false status rest
        | IfDecodeFails =>
            let '(evs, r) := run e (decode_ok e) status rest in (Decode :: evs, r)
        | CallImpl =>
            let '(evs, r) := run e false (Some (impl_status e)) rest in (Invoke :: evs, r)
        | IfStatusNotOk =>
            run e (match status with Some s => is_OK s | None => false end) status rest
        | IfEncodeFails =>
            let '(evs, r) := run e (encode_ok e) status rest in (Encode :: evs, r)
        | Release w =>
            let '(evs, r) := run e false status rest in (Released w :: evs, r)
        | ReturnStatus => ([], status)
        | ReturnConst s => ([], Some s)
        end
  end.


End Cpp.

(** ** src/generator/gen_server_nanopb.py *)

Module GenServerNanopb.
Import Descriptor Cpp.

Definition get_nanopb_type_name (proto_package msg_name : string) : string :=
  if negb (Py.truthy proto_package) then msg_name
  else Py.replace proto_package "." "_" +:+ "_" +:+ msg_name.

(** A file as [open] and the iteration over its lines see it: the lines
    read, then the error raised if reading fails (a file that cannot be
    opened yields no line).  The errors of reading, OSError and
    UnicodeDecodeError, derive from [Exception]; [read_error] is their
    text. *)
Record File := {
  file_lines : list string;
  read_error : option string
}.

(** The file system: what [os.path.exists] and [open] see at a path. *)
Definition FileSystem := string -> option File.

(** [os.path.exists(path)]; the empty path never exists. *)
Definition exists_ (fs : FileSystem) (path : string) : bool :=
  Py.truthy path &&
  match fs path with
  | Some _ => true
  | None => false
  end.

(** The message name a line of the sidecar registers, if any. *)
Definition pointer_message (line : string) : option string :=
  let line := Py.strip line in
  if negb (Py.truthy line) || Py.startswith line "#" then None
  else if Py.contains line "type:FT_POINTER" then
    match Py.split line with
    | field_path :: _ :: _ =>
        let msg_name :=
          if Py.contains field_path "."
          then Py.item_from_end (Py.split_on "."%char field_path) 1
          else None in
        if Py.truthy_opt msg_name then msg_name else None
    | _ => None
    end
  else None.

(** The directive of the sidecar format for a field [F] of a message [M]
    under the path [P]: ["P.M.F type:FT_POINTER"]. *)
Definition directive (P M F : string) : string :=
  (P +:+ "." +:+ M +:+ "." +:+ F) +:+ " type:FT_POINTER".

(** The [for line in f] loop: the set after the lines read. *)
Fixpoint read_lines (lines : list string) (messages_with_pointers : gset string)
    : gset string :=
  match lines with
  | [] => messages_with_pointers
  | line :: rest =>
      read_lines rest
        (match pointer_message line with
         | Some msg_name => {[ msg_name ]} ∪ messages_with_pointers
         | None => messages_with_pointers
         end)
  end.

(** The first candidate of [proto_paths] that exists. *)
Fixpoint search_paths (fs : FileSystem) (options_filename : string) (proto_paths : list string)
    : option string :=
  match proto_paths with
  | [] => None
  | path :: rest =>
      let candidate := Py.path_join path options_filename in
      if exists_ fs candidate then Some candidate
      else
        let candidate := Py.path_join path (Py.basename options_filename) in
        if exists_ fs candidate then Some candidate
        else search_paths fs options_filename rest
  end.

Definition find_options_file (fs : FileSystem) (proto_file_name : string)
    (proto_paths : list string) : option string :=
  let options_filename := Py.replace proto_file_name ".proto" ".options" in
  let options_file : option string :=
    if Py.isabs proto_file_name then
      let candidate := Py.replace proto_file_name ".proto" ".options" in
      if exists_ fs candidate then Some candidate else None
    else None in
  let options_file :=
    if negb (Py.truthy_opt options_file) then
      let proto_dir := Py.dirname proto_file_name in
      if Py.truthy proto_dir then
        let candidate := Py.path_join proto_dir (Py.basename options_filename) in
        if exists_ fs candidate then Some candidate else options_file
      else options_file
    else options_file in
  let options_file :=
    if negb (Py.truthy_opt options_file) then
      match search_paths fs options_filename proto_paths with
      | Some candidate => Some candidate
      | None => options_file
      end
    else options_file in
  let options_file :=
    if negb (Py.truthy_opt options_file) then
      let candidate := Py.basename options_filename in
      if exists_ fs candidate then Some candidate else options_file
    else options_file in
  options_file.

Definition warning (e : Py.exn) : string :=
  "Warning: Could not read .options file: " +:+ Py.str_of e.

(** [parse_options_file]: the set of message names, and what was printed
    on stderr. *)
Definition parse_options_file (fs : FileSystem) (proto_file_name : string)
    (proto_paths : list string) : Py.result (gset string * list string) :=
  let messages_with_pointers : gset string := ∅ in
  let options_file := find_options_file fs proto_file_name proto_paths in
  if negb (Py.truthy_opt options_file) then Py.Return (messages_with_pointers, [])
  else
    let file :=
      match fs (default EmptyString options_file) with
      | Some f => f
      | None => {| file_lines := []; read_error := Some "No such file or directory" |}
      end in
    let messages_with_pointers := read_lines (file_lines file) messages_with_pointers in
    match read_error file with
    | None => Py.Return (messages_with_pointers, [])
    | Some msg =>
        let e := Py.Exception "OSError" msg in
        if Py.is_Exception e then Py.Return (messages_with_pointers, [warning e])
        else Py.Raise e
    end.


(** The option lookup of the header, under [try ... except Exception]. *)
Definition zenoh_key_of (zenoh_key_value : Z) (msg : DescriptorProto)
    : Py.result (option string) :=
  match Util.get_option_value (msg_options msg) zenoh_key_value with
  | Py.Return zenoh_key => Py.Return zenoh_key
  | Py.Raise e => if Py.is_Exception e then Py.Return None else Py.Raise e
  end.

Definition macro_name (package : string) (msg : DescriptorProto) : string :=
  let pkg_prefix :=
    if Py.truthy package then Py.upper (Py.replace package "." "_") else EmptyString in
  (if Py.truthy pkg_prefix then pkg_prefix +:+ "_" else EmptyString)
    +:+ Py.upper (Util.to_snake_case (msg_name msg)) +:+ "_ZENOH_KEY".

Fixpoint emit_defines (package : string) (zenoh_key_value : Z) (msgs : list DescriptorProto)
    : Py.result (list string) :=
  match msgs with
  | [] => Py.Return []
  | msg :: rest =>
      Py.bind (zenoh_key_of zenoh_key_value msg) (fun zenoh_key =>
        Py.bind (emit_defines package zenoh_key_value rest) (fun ls =>
          Py.Return
            (if Py.truthy_opt zenoh_key
             then ("#define " +:+ macro_name package msg +:+ " "
                     +:+ Py.quoted (default EmptyString zenoh_key)) :: ls
             else ls)))
  end.

(** [any(get_option_value(m.options, zenoh_key_value) for m in ...)]. *)
Fixpoint any_zenoh_key (zenoh_key_value : Z) (msgs : list DescriptorProto) : Py.result bool :=
  match msgs with
  | [] => Py.Return false
  | m :: rest =>
      Py.bind (Util.get_option_value (msg_options m) zenoh_key_value) (fun zenoh_key =>
        if Py.truthy_opt zenoh_key then Py.Return true
        else any_zenoh_key zenoh_key_value rest)
  end.

(** [generate_code], the [#define] lines of the header for the messages
    that carry the custom option. *)
Definition emit_zenoh_keys (request : CodeGeneratorRequest) (proto_file : FileDescriptorProto)
    : Py.result (list string) :=
  let zenoh_key_value := Util.find_zenoh_key request in
  Py.bind (emit_defines (package proto_file) zenoh_key_value (message_type proto_file))
    (fun defines =>
       Py.bind (any_zenoh_key zenoh_key_value (message_type proto_file)) (fun some =>
         Py.Return (defines ++ (if some then [EmptyString] else [])))).


End GenServerNanopb.

(** ** Shapes of names the properties of [to_snake_case] speak about *)

Module Names.
(** A capitalized word: an upper-case letter, then one or more lower-case
    letters. *)
Definition capitalized (w : string) : bool :=
  match w with
  | String u l => Py.is_AZ u && Py.truthy l && Py.all_chars Py.is_az l
  | EmptyString => false
  end.

(** What the first pattern makes of a run of words: it joins them two by
    two, since a match takes the word after the underscore with it. *)
Fixpoint pairs (ws : list string) : string :=
  match ws with
  | [] => EmptyString
  | w1 :: rest1 =>
      match rest1 with
      | [] => w1
      | w2 :: rest => w1 +:+ "_" +:+ w2 +:+ pairs rest
      end
  end.

End Names.

(** ** What a generated client unit does, read off its lines *)

Module Generated.
Import PyCode.
(** The RPC calls a generated unit makes, in program order: the service
    and the method of every [self.rpc_client.call]. *)
Definition rpc_calls (ls : list line) : list (string * string) :=
  omap (fun l => match op_of l with
                 | CallRpc service method => Some (service, method)
                 | _ => None
                 end) ls.

(** The f-string bodies of the key expressions a generated unit
    subscribes to, in program order. *)
Definition key_exprs (ls : list line) : list string :=
  omap (fun l => match op_of l with
                 | SetKeyExpr body => Some body
                 | _ => None
                 end) ls.
End Generated.

(** ** src/generator/gen_server_nanopb.py: the include paths of the request *)

Module ProtoPaths.
Import Descriptor.

(** [s[n:]]. *)
Fixpoint from_index (n : nat) (s : string) : string :=
  match n, s with
  | O, _ => s
  | S k, String _ tl => from_index k tl
  | S _, EmptyString => EmptyString
  end.

(** The loop over [enumerate(parts)]; [previous] is [parts[i - 1]] when
    [i > 0]. *)
Fixpoint scan_parts (previous : option string) (parts : list string)
    (proto_paths : list string) : list string :=
  match parts with
  | [] => proto_paths
  | part :: rest =>
      let proto_paths :=
        if Py.startswith part "-I" then
          let path := from_index 2 part in
          let path := if Py.startswith path "=" then from_index 1 path else path in
          if Py.truthy path then proto_paths ++ [path] else proto_paths
        else if match previous with
                | Some before => String.eqb before "-I"
                | None => false
                end
        then proto_paths ++ [part]
        else proto_paths in
      scan_parts (Some part) rest proto_paths
  end.

(** [generate_code], the include paths read from the parameter of the
    request, with the current directory at the end. *)
Definition proto_paths (request : CodeGeneratorRequest) : list string :=
  let proto_paths : list string := [] in
  let proto_paths :=
    if Py.truthy (parameter request) then
      let params := Py.strip (parameter request) in
      if Py.truthy params then scan_parts None (Py.split params) proto_paths
      else proto_paths
    else proto_paths in
  proto_paths ++ ["."].






End ProtoPaths.

(** ** src/generator/gen_server_nanopb.py: the emitted [register_handlers] *)

Module Registration.
Import Descriptor.

Inductive op :=
| Skip                          (* signature, comment, blank, braces, logging *)
| InitSuccess                   (* bool success = true; *)
| Register (method : string)    (* success &= channel_.register_handler( *)
| Route (method : string)       (* return handle_M(req_stream, resp_stream); *)
| ReturnSuccess.                (* return success; *)

Record line := Line { op_of : op; text : string }.



(** Runs [register_handlers]: the registrations attempted, each with the
    method it is keyed by and the handler its callback routes to, and the
    value returned.  [accepts] tells whether the channel accepts the
    registration of a method; [&=] does not short-circuit. *)
Fixpoint run (accepts : string -> bool) (success : bool) (pending : option string)
    (ls : list line) : list (string * string) * option bool :=
  match ls with
  | [] => ([], None)
  | l :: rest =>
      match op_of l with
      | Skip => run accepts success pending rest
      | InitSuccess => run accepts true pending rest
      | Register method => run accepts (success && accepts method) (Some method) rest
      | Route handler =>
          match pending with
          | Some method =>
              let '(routes, r) := run accepts success None rest in
              ((method, handler) :: routes, r)
          | None => run accepts success None rest
          end
      | ReturnSuccess => ([], Some success)
      end
  end.


End Registration.

(** ** src/tools/rpc/zenoh_rpc_client.py: [ZenohSubscriberClient] *)

Module ZenohSubscriberClient.

(** A zenoh subscriber as the client holds it: [id(subscriber)] and the
    key expression it was declared on. *)
Record Subscriber := { ident : Z; declared_on : string }.

(** [self._subscribers]: a dict from [str(id(subscriber))] to the
    subscriber, in insertion order. *)
Definition dict := list (string * Subscriber).

(** [key in d] and [d[key]]. *)
Fixpoint dict_get (d : dict) (key : string) : option Subscriber :=
  match d with
  | [] => None
  | (k, v) :: rest => if String.eqb k key then Some v else dict_get rest key
  end.

(** [d[key] = value]: a key already present keeps its place. *)
Fixpoint dict_set (d : dict) (key : string) (value : Subscriber) : dict :=
  match d with
  | [] => [(key, value)]
  | (k, v) :: rest =>
      if String.eqb k key then (k, value) :: rest else (k, v) :: dict_set rest key value
  end.

(** [del d[key]]. *)
Fixpoint dict_del (d : dict) (key : string) : dict :=
  match d with
  | [] => []
  | (k, v) :: rest => if String.eqb k key then rest else (k, v) :: dict_del rest key
  end.

Definition keys (d : dict) : list string := map fst d.
Definition values (d : dict) : list Subscriber := map snd d.

(** [str(n)] of an [int]. *)
Definition str (n : Z) : string := pretty n.

(** What a call leaves behind: the dict of the client, the subscribers it
    undeclared, in order, and the exception it raised, if any. *)
Record after := {
  subscribers : dict;
  undeclared : list Subscriber;
  raised : option Py.exn
}.

(** [subscribe].  [declared] is the outcome of
    [session.declare_subscriber(key_expr, handler)]: the [id] the
    interpreter gives the new subscriber, or the exception raised. *)
Definition subscribe (d : dict) (key_expr : string) (declared : Py.result Z)
    : Py.result (dict * string) :=
  Py.bind declared (fun address =>
    let subscriber := {| ident := address; declared_on := key_expr |} in
    let sub_id := str (ident subscriber) in
    Py.Return (dict_set d sub_id subscriber, sub_id)).

(** [unsubscribe].  [undeclare] is [subscriber.undeclare()], which may
    raise. *)
Definition unsubscribe (undeclare : Subscriber -> Py.result unit) (d : dict)
    (sub_id : string) : after :=
  match dict_get d sub_id with
  | Some subscriber =>
      match undeclare subscriber with
      | Py.Return _ =>
          {| subscribers := dict_del d sub_id; undeclared := [subscriber]; raised := None |}
      | Py.Raise e => {| subscribers := d; undeclared := []; raised := Some e |}
      end
  | None => {| subscribers := d; undeclared := []; raised := None |}
  end.

(** The [for subscriber in self._subscribers.values()] loop. *)
Fixpoint undeclare_each (undeclare : Subscriber -> Py.result unit)
    (subscribers : list Subscriber) : list Subscriber * option Py.exn :=
  match subscribers with
  | [] => ([], None)
  | subscriber :: rest =>
      match undeclare subscriber with
      | Py.Return _ =>
          let '(done, e) := undeclare_each undeclare rest in (subscriber :: done, e)
      | Py.Raise e => ([], Some e)
      end
  end.

(** [unsubscribe_all]: the dict is cleared after the loop, so not when
    the loop raises. *)
Definition unsubscribe_all (undeclare : Subscriber -> Py.result unit) (d : dict) : after :=
  let '(done, e) := undeclare_each undeclare (values d) in
  {| subscribers := match e with None => [] | Some _ => d end;
     undeclared := done; raised := e |}.

End ZenohSubscriberClient.

(** ** [LogSubscriber] of src/tools/rpc/zenoh_rpc_client.py *)

Module LogSubscriber.
Import ZenohSubscriberClient.

(** The attributes [device_id] and [_sub_id]. *)
Record LogSubscriber := { device_id : string; sub_id : option string }.

Definition key_expr (self : LogSubscriber) : string := device_id self +:+ "/log".

(** [handler(data)] of [subscribe]: what is logged as an error, or the
    exception that escapes.  [callback] is the callback of the caller,
    which may raise. *)
Definition handler (callback : string -> Py.result unit) (data : list Z)
    : Py.result (list string) :=
  match Py.bind (Py.decode_utf8 data) callback with
  | Py.Return _ => Py.Return []
  | Py.Raise e =>
      if Py.is_Exception e
      then Py.Return ["Failed to decode log message: " +:+ Py.str_of e]
      else Py.Raise e
  end.

(** [subscribe]: the sub-client's dict and the object afterwards. *)
Definition subscribe (d : dict) (self : LogSubscriber) (declared : Py.result Z)
    : Py.result (dict * LogSubscriber) :=
  Py.bind (ZenohSubscriberClient.subscribe d (key_expr self) declared)
    (fun '(d, new_id) =>
       Py.Return (d, {| device_id := device_id self; sub_id := Some new_id |})).

(** [unsubscribe]. *)
Definition unsubscribe (undeclare : Subscriber -> Py.result unit) (d : dict)
    (self : LogSubscriber) : after * LogSubscriber :=
  if Py.truthy_opt (sub_id self) then
    let a := ZenohSubscriberClient.unsubscribe undeclare d (default EmptyString (sub_id self)) in
    match raised a with
    | None => (a, {| device_id := device_id self; sub_id := None |})
    | Some _ => (a, self)
    end
  else ({| subscribers := d; undeclared := []; raised := None |}, self).

End LogSubscriber.

(** ** [TelemetrySubscriber] of src/tools/rpc/service_client.py, the
    class the client emitter writes *)

Module TelemetrySubscriber.
Import ZenohSubscriberClient.

(** [subscribe_*]: the sub-client's dict and [self._sub_ids] afterwards;
    [key_expr] is the key of the generated method. *)
Definition subscribe (d : dict) (sub_ids : list string) (key_expr : string)
    (declared : Py.result Z) : Py.result (dict * list string) :=
  Py.bind (ZenohSubscriberClient.subscribe d key_expr declared)
    (fun '(d, sub_id) => Py.Return (d, sub_ids ++ [sub_id])).

(** The [for sid in self._sub_ids] loop of [unsubscribe_all]. *)
Fixpoint unsubscribe_each (undeclare : Subscriber -> Py.result unit) (d : dict)
    (sub_ids : list string) : after :=
  match sub_ids with
  | [] => {| subscribers := d; undeclared := []; raised := None |}
  | sid :: rest =>
      let a := unsubscribe undeclare d sid in
      match raised a with
      | None =>
          let b := unsubscribe_each undeclare (subscribers a) rest in
          {| subscribers := subscribers b; undeclared := undeclared a ++ undeclared b;
             raised := raised b |}
      | Some _ => a
      end
  end.

(** [unsubscribe_all]: the outcome, and [self._sub_ids] afterwards. *)
Definition unsubscribe_all (undeclare : Subscriber -> Py.result unit) (d : dict)
    (sub_ids : list string) : after * list string :=
  let a := unsubscribe_each undeclare d sub_ids in
  (a, match raised a with None => [] | Some _ => sub_ids end).

(** A sequence of [subscribe_*] calls, each with the key of its method
    and the [id] of the subscriber the session declares for it. *)
Fixpoint subscribe_each (d : dict) (sub_ids : list string) (topics : list (string * Z))
    : Py.result (dict * list string) :=
  match topics with
  | [] => Py.Return (d, sub_ids)
  | (key_expr, address) :: rest =>
      Py.bind (subscribe d sub_ids key_expr (Py.Return address)) (fun '(d, sub_ids) =>
        subscribe_each d sub_ids rest)
  end.

(** The subscriber declared for a topic. *)
Definition subscriber_of (topic : string * Z) : Subscriber :=
  {| ident := snd topic; declared_on := fst topic |}.

End TelemetrySubscriber.

(** ** src/generator/gen_nicegui.py: how the page takes a call result apart *)

Module GenNicegui.
Import Descriptor PyCode.

Inductive op :=
| UnpackAlone      (* response, payload = call_result, None *)
| UnpackPair.      (* response, payload = call_result *)

Record line := Line { op_of : op; text : string }.



Definition AttributeError : Py.exn :=
  Py.Exception "AttributeError" "'tuple' object has no attribute 'success'".


End GenNicegui.

(** ** src/build.py: [main] *)

Module Build.

(** The flags of the command line that [main] reads. *)
Record Args := {
  proto_only : bool;
  build_only : bool;
  flash_only : bool;
  erase_nvs : bool
}.

(** The steps [main] may run: [generate_proto], [build], [erase_nvs],
    [flash], [monitor]. *)
Inductive step := GenerateProto | BuildApp | EraseNvs | Flash | Monitor.

(** What a run meets: whether the application directory exists, and
    whether each step returns [True] ([monitor] returns when it is
    interrupted, with [True], or when the serial port fails, with
    [False]). *)
Record env := {
  app_exists : bool;
  succeeds : step -> bool
}.

(** [main]: the steps run, in order, and the exit code. *)
Definition main (args : Args) (e : env) : list step * Z :=
  if negb (app_exists e) then ([], 1)
  else
    let after_build (done : list step) : list step * Z :=
      let after_erase (done : list step) : list step * Z :=
        if negb (build_only args) then
          if negb (succeeds e Flash) then (done ++ [Flash], 1)
          else if negb (succeeds e Monitor) then (done ++ [Flash; Monitor], 1)
          else (done ++ [Flash; Monitor], 0)
        else (done, 0) in
      if erase_nvs args then
        if negb (succeeds e EraseNvs) then (done ++ [EraseNvs], 1)
        else after_erase (done ++ [EraseNvs])
      else after_erase done in
    if negb (flash_only args) then
      if negb (succeeds e GenerateProto) then ([GenerateProto], 1)
      else if proto_only args then ([GenerateProto], 0)
      else if negb (succeeds e BuildApp) then ([GenerateProto; BuildApp], 1)
      else after_build [GenerateProto; BuildApp]
    else after_build [].

End Build.

(** ** The schema of the checked-in bindings (src/tools/rpc/service_client.py
    is the client generated from it) *)

Module Sample.
Import Descriptor.

Definition field (name : string) (type : Z) : FieldDescriptorProto :=
  {| field_name := name; field_number := 1; field_type := type |}.

Definition message (name : string) (fields : list FieldDescriptorProto) : DescriptorProto :=
  {| msg_name := name; msg_field := fields; msg_options := [] |}.

Definition method (name input output : string) : MethodDescriptorProto :=
  {| method_name := name;
     input_type := ".practice.rpc." +:+ input;
     output_type := ".practice.rpc." +:+ output |}.

Definition sensor_telemetry : DescriptorProto := message "SensorTelemetry" [].

Definition device_service : ServiceDescriptorProto :=
  {| service_name := "DeviceService";
     service_method :=
       [ method "SetLed" "LedRequest" "LedResponse";
         method "Echo" "EchoRequest" "EchoResponse";
         method "EchoMalloc" "EchoRequestMalloc" "EchoResponseMalloc";
         method "StartSensorStream" "SensorRequest" "Empty";
         method "StopSensorStream" "Empty" "Empty";
         method "ConfigureWifi" "WifiSettings" "Empty" ] |}.

Definition service_proto : FileDescriptorProto :=
  {| file_name := "service.proto";
     package := "practice.rpc";
     message_type :=
       [ message "LedRequest" [field "on" 8];
         message "LedResponse" [];
         message "EchoRequest" [field "msg" 9];
         message "EchoResponse" [];
         message "EchoRequestMalloc" [field "msg" 12];
         message "EchoResponseMalloc" [];
         message "SensorRequest" [];
         message "Empty" [];
         message "WifiSettings" [field "ssid" 9; field "password" 9];
         sensor_telemetry ];
     service := [device_service];
     extension := [] |}.

Definition request : CodeGeneratorRequest :=
  {| file_to_generate := ["service.proto"]; parameter := EmptyString;
     proto_file := [service_proto] |}.

(** A schema that declares the custom option under another number. *)
Definition zenoh_key_extension : FieldDescriptorProto :=
  {| field_name := "zenoh_key"; field_number := 50002; field_type := 9 |}.

Definition options_proto : FileDescriptorProto :=
  {| file_name := "options.proto"; package := "practice.rpc";
     message_type := []; service := []; extension := [zenoh_key_extension] |}.

Definition keyed_request : CodeGeneratorRequest :=
  {| file_to_generate := ["service.proto"]; parameter := EmptyString;
     proto_file := [service_proto; options_proto] |}.

(** A request without any file. *)
Definition empty_request : CodeGeneratorRequest :=
  {| file_to_generate := []; parameter := EmptyString; proto_file := [] |}.



(** A method whose input type is declared in no file of the request. *)
Definition stray_method : MethodDescriptorProto :=
  {| method_name := "SetLed";
     input_type := ".other.LedRequest";
     output_type := ".practice.rpc.LedResponse" |}.

Definition stray_service : ServiceDescriptorProto :=
  {| service_name := "DeviceService"; service_method := [stray_method] |}.

Definition stray_proto : FileDescriptorProto :=
  {| file_name := "service.proto"; package := "practice.rpc";
     message_type := [message "LedResponse" []];
     service := [stray_service]; extension := [] |}.

(** A caller that passes no request, over a transport without reply. *)
Definition silent_env : PyCode.env :=
  {| PyCode.supplied := None;
     PyCode.built := fun _ _ => [];
     PyCode.rpc_call := fun _ _ _ =>
       {| ZenohRpcClient.success := false; ZenohRpcClient.data := [];
          ZenohRpcClient.error := Some "No reply received" |};
     PyCode.parses := fun _ _ => true |}.





End Sample.

(** ** Further inputs the properties are exercised on *)

Module Cases.
Import Descriptor.


(** A telemetry message whose options end inside a tag. *)
Definition broken_telemetry : DescriptorProto :=
  {| msg_name := "SensorTelemetry"; msg_field := []; msg_options := [128] |}.

Definition broken_proto : FileDescriptorProto :=
  {| file_name := "service.proto"; package := "practice.rpc";
     message_type := [Sample.message "Empty" []; broken_telemetry];
     service := []; extension := [] |}.

Definition broken_request : CodeGeneratorRequest :=
  {| file_to_generate := ["service.proto"]; parameter := EmptyString;
     proto_file := [broken_proto] |}.


(** A sidecar whose reading fails after its first directive. *)
Definition failing_file_system : GenServerNanopb.FileSystem :=
  fun path =>
    if String.eqb path "./service.options"
    then Some {| GenServerNanopb.file_lines :=
                   ["practice.rpc.EchoRequestMalloc.msg type:FT_POINTER" +:+ Py.lf];
                 GenServerNanopb.read_error := Some "Input/output error" |}
    else None.

(** A session whose subscribers undeclare without error. *)
Definition undeclare_ok : ZenohSubscriberClient.Subscriber -> Py.result unit :=
  fun _ => Py.Return tt.

(** A sub-client that holds the log subscription of a device. *)
Definition log_subscription : ZenohSubscriberClient.dict :=
  [("7", {| ZenohSubscriberClient.ident := 7;
            ZenohSubscriberClient.declared_on := "dev1/log" |})].

End Cases.

(* ===================================================================== *)
(** * Part II: properties                                                 *)
(* ===================================================================== *)

(** ** The built-ins on small inputs *)

Example split_whitespace :
  Py.split ("  a.b  type:X" +:+ Py.lf) = ["a.b"; "type:X"].
Proof. reflexivity. Qed.

Example strip_line : Py.strip ("  a b " +:+ Py.lf) = "a b".
Proof. reflexivity. Qed.

Example split_on_dots :
  Py.split_on "."%char ".practice.rpc.Empty" = [""; "practice"; "rpc"; "Empty"]
  /\ Py.last_item (Py.split_on "."%char ".practice.rpc.Empty") = "Empty"
  /\ Py.item_from_end (Py.split_on "."%char "a.b.c") 1 = Some "b"
  /\ Py.item_from_end (Py.split_on "."%char "abc") 1 = None.
Proof. repeat split. Qed.

Example replace_all_occurrences :
  Py.replace "TelemetryLinkTelemetry" "Telemetry" "" = "Link"
  /\ Py.removesuffix "TelemetryLinkTelemetry" "Telemetry" = "TelemetryLink"
  /\ Py.replace "a/b/c.proto" "/" "." = "a.b.c.proto"
  /\ Py.removesuffix "Sensor" "Telemetry" = "Sensor".
Proof. repeat split. Qed.

Example paths :
  Py.dirname "protos/rpc/service.proto" = "protos/rpc"
  /\ Py.dirname "service.proto" = ""
  /\ Py.dirname "/service.proto" = "/"
  /\ Py.basename "protos/rpc/service.options" = "service.options"
  /\ Py.path_join "." "service.options" = "./service.options"
  /\ Py.path_join "inc/" "service.options" = "inc/service.options"
  /\ Py.path_join "inc" "/abs/service.options" = "/abs/service.options".
Proof. repeat split. Qed.

Example fstring_fields :
  Py.fstring "dev1" "{self.device_id}/telemetry/sensor" = Some "dev1/telemetry/sensor"
  /\ Py.fstring "dev1" "{{x}}" = Some "{x}"
  /\ Py.fstring "dev1" "{other}" = None.
Proof. repeat split. Qed.

Example utf8_cases :
  Py.utf8_valid [0x2F; 0xC3; 0xA9; 0xE2; 0x82; 0xAC] = true     (* "/", e acute, euro sign *)
  /\ Py.utf8_valid [0xC0; 0x80] = false                         (* overlong *)
  /\ Py.utf8_valid [0xED; 0xA0; 0x80] = false                   (* surrogate *)
  /\ Py.utf8_valid [0xE2; 0x82] = false.                        (* cut short *)
Proof. repeat split. Qed.

Example varint_300 :
  Wire.encode_varint 300 = [0xAC; 0x02]
  /\ Decoder.DecodeVarint32 [0xAC; 0x02] 0 = Py.Return (300, 2)
  /\ Decoder.DecodeVarint32 [0xAC] 0 = Py.Raise Py.IndexError
  /\ Wire.serialize [Wire.Field 50001 (Wire.Bytes [88])] = [0x8A; 0xB5; 0x18; 0x01; 0x58].
Proof. repeat split. Qed.

Example get_option_value_X :
  Util.get_option_value [0x8A; 0xB5; 0x18; 0x01; 0x58] 50001 = Py.Return (Some "X").
Proof. reflexivity. Qed.

(** The emitted text, against the checked-in client
    (src/tools/rpc/service_client.py, [start_sensor_stream] and
    [subscribe_sensor]). *)
Example emit_method_start_sensor_stream :
  map PyCode.text
    (GenClientPython.emit_method (GenClientPython.get_message_map Sample.service_proto)
       Sample.device_service (Sample.method "StartSensorStream" "SensorRequest" "Empty"))
  = [ "    def start_sensor_stream(self, request: Optional[pb.SensorRequest] = None) -> RpcResponse:";
      "        " +:+ Py.dq +:+ Py.dq +:+ Py.dq +:+ "StartSensorStream RPC call."
        +:+ Py.dq +:+ Py.dq +:+ Py.dq;
      "        if request is None:";
      "            request = pb.SensorRequest()";
      "";
      "        result = self.rpc_client.call(self.SERVICE_NAME, "
        +:+ Py.quoted "StartSensorStream" +:+ ", request.SerializeToString())";
      "        if result.success:";
      "            return RpcResponse(success=True)";
      "        return RpcResponse(success=False, error=result.error)";
      "" ].
Proof. reflexivity. Qed.

Example emit_method_set_led_signature :
  option_map PyCode.text
    (GenClientPython.emit_method (GenClientPython.get_message_map Sample.service_proto)
       Sample.device_service (Sample.method "SetLed" "LedRequest" "LedResponse") !! 0%nat)
  = Some "    def set_led(self, request: Optional[pb.LedRequest] = None, *, on: Optional[bool] = None) -> tuple[RpcResponse, Optional[pb.LedResponse]]:".
Proof. reflexivity. Qed.

Example emit_subscribe_sensor_key_expr :
  Py.bind (GenClientPython.emit_subscribe Sample.request Sample.sensor_telemetry)
    (fun ls => Py.Return (option_map PyCode.text (ls !! 2%nat)))
  = Py.Return (Some ("        key_expr = f" +:+ Py.quoted "{self.device_id}/telemetry/sensor")).
Proof. reflexivity. Qed.

Example to_snake_case_SetLed : Util.to_snake_case "SetLed" = "set_led".
Proof. reflexivity. Qed.

Example to_snake_case_StartSensorStream :
  Util.to_snake_case "StartSensorStream" = "start_sensor_stream".
Proof. reflexivity. Qed.

Example to_snake_case_acronym : Util.to_snake_case "getHTTPResponse2Go" = "get_http_response2_go".
Proof. reflexivity. Qed.

(** ** get_option_value: varints, the scan, termination *)

















Lemma varint_loop_terminates rounds :
  forall mask buffer pos acc shift,
    shift < 64 <= shift + 7 * Z.of_nat rounds ->
    Py.terminates (Decoder.varint_loop rounds mask buffer pos acc shift).
Proof.
  unfold Py.terminates.
  induction rounds as [|r IH]; intros mask buffer pos acc shift Hs; [lia|].
  cbn [Decoder.varint_loop]. unfold Py.index.
  destruct (buffer !! Z.to_nat pos) as [b|]; cbn [Py.bind]; [|discriminate].
  destruct (Z.land b 128 =? 0); [discriminate|].
  destruct (64 <=? shift + 7) eqn:H64; [discriminate|].
  apply Z.leb_gt in H64. apply IH. lia.
Qed.

Lemma varint_loop_advances rounds :
  forall mask buffer pos acc shift v pos',
    0 <= mask ->
    Decoder.varint_loop rounds mask buffer pos acc shift = Py.Return (v, pos') ->
    pos < pos' /\ 0 <= v.
Proof.
  induction rounds as [|r IH]; intros mask buffer pos acc shift v pos' Hm; [discriminate|].
  cbn [Decoder.varint_loop]. unfold Py.index.
  destruct (buffer !! Z.to_nat pos) as [b|]; cbn [Py.bind]; [|discriminate].
  destruct (Z.land b 128 =? 0).
  - intros [= <- <-]. split; [lia|]. apply Z.land_nonneg. now right.
  - destruct (64 <=? shift + 7); [discriminate|].
    intros H. apply IH in H; [lia|exact Hm].
Qed.

Lemma VarintDecoder_terminates mask buffer pos :
  Py.terminates (Decoder.VarintDecoder mask buffer pos).
Proof. apply varint_loop_terminates. lia. Qed.

Lemma decode_utf8_terminates bs : Py.terminates (Py.decode_utf8 bs).
Proof. unfold Py.terminates, Py.decode_utf8. destruct (Py.utf8_valid bs); discriminate. Qed.

Lemma scan_terminates rounds :
  forall data k pos,
    Z.of_nat (length data) - pos <= Z.of_nat rounds ->
    Py.terminates (Util.scan (S rounds) data k pos).
Proof.
  unfold Py.terminates.
  induction rounds as [|r IH]; intros data k pos Hr.
  - cbn [Util.scan]. replace (pos <? _) with false by (symmetry; apply Z.ltb_ge; lia).
    discriminate.
  - remember (S r) as r' eqn:Hr'. cbn [Util.scan].
    destruct (pos <? Z.of_nat (length data)) eqn:Hlt; [|discriminate].
    apply Z.ltb_lt in Hlt.
    destruct (Decoder.DecodeVarint32 data pos) as [[tag pos1]|e] eqn:Htag; cbn [Py.bind].
    2:{ intros [= ->]. exact (VarintDecoder_terminates _ _ _ Htag). }
    apply varint_loop_advances in Htag as [Hpos1 _]; [|now vm_compute].
    destruct (Z.shiftr tag 3 =? k).
    + destruct (Z.land tag 7 =? 2); [|discriminate].
      destruct (Decoder.DecodeVarint32 data pos1) as [[len pos2]|e] eqn:Hlen; cbn [Py.bind].
      2:{ intros [= ->]. exact (VarintDecoder_terminates _ _ _ Hlen). }
      unfold Py.decode_utf8. destruct (Py.utf8_valid _); discriminate.
    + assert (Hskip : forall e, Util.skip_field data (Z.land tag 7) pos1 = Py.Raise e ->
                                 e <> Py.Diverged).
      { unfold Util.skip_field. intros e.
        destruct (Z.land tag 7 =? 0).
        { destruct (Decoder.DecodeVarint64 data pos1) as [[? ?]|e'] eqn:H64; cbn [Py.bind];
            [discriminate|].
          intros [= ->] ->. exact (VarintDecoder_terminates _ _ _ H64). }
        destruct (Z.land tag 7 =? 1); [discriminate|].
        destruct (Z.land tag 7 =? 2).
        { destruct (Decoder.DecodeVarint32 data pos1) as [[? ?]|e'] eqn:H32; cbn [Py.bind];
            [discriminate|].
          intros [= ->] ->. exact (VarintDecoder_terminates _ _ _ H32). }
        destruct (Z.land tag 7 =? 5); discriminate. }
      assert (Hadv : forall pos2, Util.skip_field data (Z.land tag 7) pos1 = Py.Return pos2 ->
                                  pos1 <= pos2).
      { unfold Util.skip_field. intros pos2.
        destruct (Z.land tag 7 =? 0).
        { destruct (Decoder.DecodeVarint64 data pos1) as [[? ?]|e'] eqn:H64; cbn [Py.bind];
            [|discriminate].
          intros [= <-]. apply varint_loop_advances in H64; [lia|now vm_compute]. }
        destruct (Z.land tag 7 =? 1); [intros [= <-]; lia|].
        destruct (Z.land tag 7 =? 2).
        { destruct (Decoder.DecodeVarint32 data pos1) as [[? ?]|e'] eqn:H32; cbn [Py.bind];
            [|discriminate].
          intros [= <-]. apply varint_loop_advances in H32; [lia|now vm_compute]. }
        destruct (Z.land tag 7 =? 5); intros [= <-]; lia. }
      destruct (Util.skip_field data (Z.land tag 7) pos1) as [pos2|e]; cbn [Py.bind].
      * subst r'. apply IH. specialize (Hadv pos2 eq_refl). lia.
      * intros [= ->]. now apply (Hskip Py.Diverged).
Qed.

Lemma get_option_value_terminates data k : Py.terminates (Util.get_option_value data k).
Proof. apply scan_terminates. lia. Qed.

(** ** to_snake_case *)

Section SnakeCase.

Let no_AZ (c : ascii) : bool := negb (Py.is_AZ c).

Lemma lower_char_no_AZ c : Py.is_AZ (Py.lower_char c) = false.
Proof. destruct c as [[] [] [] [] [] [] [] []]; reflexivity. Qed.

Lemma lower_char_fixed c : Py.is_AZ c = false -> Py.lower_char c = c.
Proof. unfold Py.lower_char. now intros ->. Qed.

Lemma lower_all_no_AZ s : Py.all_chars no_AZ (Py.lower s) = true.
Proof.
  induction s as [|c s IH]; [reflexivity|].
  cbn. unfold no_AZ at 1. now rewrite lower_char_no_AZ, IH.
Qed.

Lemma lower_fixed s : Py.all_chars no_AZ s = true -> Py.lower s = s.
Proof.
  induction s as [|c s IH]; [reflexivity|].
  cbn. intros [Hc Hs]%andb_true_iff.
  apply negb_true_iff in Hc. now rewrite lower_char_fixed, IH.
Qed.


Lemma sub_fixed m s :
  Py.needs_AZ m -> m EmptyString = None -> (forall c, m (String c EmptyString) = None) ->
  Py.all_chars no_AZ s = true -> Py.sub m s = s.
Proof.
  intros Hm H0 H1. unfold Py.sub.
  induction s as [|c s IH]; [reflexivity|].
  cbn [Py.all_chars]. intros [_ Hs]%andb_true_iff.
  cbn [Py.sub_from]. destruct s as [|u rest].
  - now rewrite H1.
  - rewrite Hm.
    + now rewrite IH.
    + cbn in Hs. apply andb_true_iff in Hs as [Hu _]. now apply negb_true_iff in Hu.
Qed.

Lemma pat_word_needs_AZ : Py.needs_AZ Util.pat_word.
Proof. intros c u rest Hu. cbn. rewrite Hu. now rewrite andb_false_r. Qed.

Lemma pat_hump_needs_AZ : Py.needs_AZ Util.pat_hump.
Proof. intros c u rest Hu. cbn. rewrite Hu. now rewrite andb_false_r. Qed.

Lemma to_snake_case_fixed s :
  Py.all_chars no_AZ s = true -> Util.to_snake_case s = s.
Proof.
  intros Hs. unfold Util.to_snake_case.
  rewrite (sub_fixed Util.pat_word s pat_word_needs_AZ); try easy.
  rewrite (sub_fixed Util.pat_hump s pat_hump_needs_AZ); try easy.
  now apply lower_fixed.
Qed.

(** C10. [to_snake_case] is idempotent, and its result holds no
    upper-case ASCII letter. *)
Theorem to_snake_case_idempotent_lowercase (s : string) :
  Util.to_snake_case (Util.to_snake_case s) = Util.to_snake_case s /\
  Py.all_chars (fun c => negb (Py.is_AZ c)) (Util.to_snake_case s) = true.
Proof.
  assert (H : Py.all_chars no_AZ (Util.to_snake_case s) = true)
    by apply lower_all_no_AZ.
  split; [now apply to_snake_case_fixed | exact H].
Qed.

End SnakeCase.

(** ** ZenohRpcClient.call *)

Section RpcCall.
Import ZenohRpcClient.

Variables (service_name method_name : string) (request_data : list Z) (timeout_ms : Z).

(** C3. The key expression of a call is ["<d>/rpc/<S>/<M>"] for a
    non-empty device id [d] and ["rpc/<S>/<M>"] for the empty one, and it
    is the key the call hands to the session. *)
Theorem call_key_expression (c : ascii) (d : string) :
  key_expr (String c d) service_name method_name
    = String c d +:+ "/rpc/" +:+ service_name +:+ "/" +:+ method_name /\
  key_expr "" service_name method_name
    = "rpc/" +:+ service_name +:+ "/" +:+ method_name /\
  key_expr "dev1" "DeviceService" "SetLed" = "dev1/rpc/DeviceService/SetLed" /\
  key_expr "" "DeviceService" "SetLed" = "rpc/DeviceService/SetLed" /\
  (forall device_id,
     call echo_key device_id service_name method_name request_data timeout_ms
     = Py.Return {| success := false; data := [];
                    error := Some (key_expr device_id service_name method_name) |}).
Proof. repeat split. Qed.

End RpcCall.

(** ** The raw option extractor *)



(** ** ZenohRpcClient.call: replies and failures *)

Section RpcReplies.
Import ZenohRpcClient.

Variable session : Session.
Variables (device_id service_name method_name : string).
Variables (request_data : list Z) (timeout_ms : Z).

Let answer := session (key_expr device_id service_name method_name) request_data timeout_ms.
Let outcome := call session device_id service_name method_name request_data timeout_ms.

(** C8. The result of a call is that of the first reply, whatever follows
    it; no reply at all gives the failure "No reply received", which no
    error reply can give; an exception of the transport, raised by the
    query or while waiting for a reply, gives a failure with its text. *)
Theorem call_first_reply_or_failure :
  (forall reply rest,
     answer = Py.Return (Next reply rest) ->
     outcome = Py.Return
       match reply with
       | ReplyOk payload => {| success := true; data := payload; error := None |}
       | ReplyErr err =>
           {| success := false; data := []; error := Some ("Reply error: " +:+ err) |}
       end) /\
  (answer = Py.Return Finished ->
   outcome = Py.Return {| success := false; data := []; error := Some "No reply received" |}) /\
  (forall err, "No reply received" <> "Reply error: " +:+ err) /\
  (forall e,
     Py.is_Exception e = true ->
     answer = Py.Raise e \/ answer = Py.Return (Broken e) ->
     outcome = Py.Return {| success := false; data := []; error := Some (Py.str_of e) |}).
Proof.
  subst answer outcome. unfold call, call_try.
  repeat split.
  - intros reply rest ->. now destruct reply.
  - now intros ->.
  - discriminate.
  - intros e He [-> | ->]; cbn; now rewrite He.
Qed.

End RpcReplies.

Lemma call_first_reply_or_failure_witness :
  ZenohRpcClient.call
    (fun _ _ _ => Py.Return (ZenohRpcClient.Next (ZenohRpcClient.ReplyErr "busy")
                               (ZenohRpcClient.Next (ZenohRpcClient.ReplyOk [1])
                                  ZenohRpcClient.Finished)))
    "dev1" "DeviceService" "SetLed" [] 5000
  = Py.Return {| ZenohRpcClient.success := false; ZenohRpcClient.data := [];
                 ZenohRpcClient.error := Some "Reply error: busy" |} /\
  ZenohRpcClient.call (fun _ _ _ => Py.Return ZenohRpcClient.Finished)
    "dev1" "DeviceService" "SetLed" [] 5000
  = Py.Return {| ZenohRpcClient.success := false; ZenohRpcClient.data := [];
                 ZenohRpcClient.error := Some "No reply received" |} /\
  ZenohRpcClient.call (fun _ _ _ => Py.Raise (Py.Exception "ZError" "session closed"))
    "dev1" "DeviceService" "SetLed" [] 5000
  = Py.Return {| ZenohRpcClient.success := false; ZenohRpcClient.data := [];
                 ZenohRpcClient.error := Some "session closed" |}.
Proof.
  split; [|split].
  - exact (proj1 (call_first_reply_or_failure _ "dev1" "DeviceService" "SetLed" [] 5000)
             _ _ eq_refl).
  - exact (proj1 (proj2 (call_first_reply_or_failure _ "dev1" "DeviceService" "SetLed" [] 5000))
             eq_refl).
  - exact (proj2 (proj2 (proj2
             (call_first_reply_or_failure
                (fun _ _ _ => Py.Raise (Py.Exception "ZError" "session closed"))
                "dev1" "DeviceService" "SetLed" [] 5000)))
             (Py.Exception "ZError" "session closed") eq_refl (or_introl eq_refl)).
Defined.

(** ** The generated server handler *)

Section Handler.
Import Descriptor Cpp GenServerNanopb.

Variables (package : string) (messages_with_pointers : gset string).
Variables (service : ServiceDescriptorProto) (method : MethodDescriptorProto).



End Handler.


(** ** The generated client call *)

Section ClientCall.
Import Descriptor ZenohRpcClient PyCode GenClientPython.

Variable msg_map : gmap string DescriptorProto.
Variables (service : ServiceDescriptorProto) (method : MethodDescriptorProto).
Variable e : env.

Let req_cls := Py.last_item (Py.split_on "."%char (input_type method)).
Let resp_cls := Py.last_item (Py.split_on "."%char (output_type method)).

(** The request the call sends: the one supplied, else the one built from
    the keyword arguments. *)
Let sent : list Z :=
  match supplied e with
  | Some request => request
  | None => built e req_cls (map field_name (input_fields msg_map method))
  end.

Let r : RpcResult := rpc_call e (service_name service) (method_name method) sent.


End ClientCall.

(** ** Unresolved input types *)

Section Unresolved.
Import Descriptor ZenohRpcClient PyCode GenClientPython.

Lemma message_map_from_None package msgs :
  forall (msg_map : gmap string DescriptorProto) key,
    message_map_from package msgs msg_map !! key = None <->
    msg_map !! key = None /\
    forall msg, In msg msgs -> full_name package (msg_name msg) <> key.
Proof.
  induction msgs as [|m rest IH]; intros msg_map key; cbn [message_map_from].
  - split; [intros H; split; [exact H | intros ? []] | now intros [H _]].
  - rewrite IH, lookup_insert_None. split.
    + intros [[Hm Hne] Hrest]. split; [exact Hm|].
      intros msg [<-|Hin]; [exact Hne | now apply Hrest].
    + intros [Hm Hall]. split; [split; [exact Hm|]|].
      * apply Hall. now left.
      * intros msg Hin. apply Hall. now right.
Qed.

Lemma get_message_map_None proto_file key :
  get_message_map proto_file !! key = None <->
  forall msg, In msg (message_type proto_file) ->
              full_name (package proto_file) (msg_name msg) <> key.
Proof.
  unfold get_message_map. rewrite message_map_from_None, lookup_empty. tauto.
Qed.

Variable proto_file : FileDescriptorProto.
Variables (service : ServiceDescriptorProto) (method : MethodDescriptorProto).

Let msg_map := get_message_map proto_file.
Let req_cls := Py.last_item (Py.split_on "."%char (input_type method)).
Let zero_args := "self, request: Optional[pb." +:+ req_cls +:+ "] = None".

(** C9. When no message of the file has the qualified name the method
    gives as its input type, the call is emitted all the same, from an
    empty field list: its parameters are the optional request alone, the
    request is built by the constructor without arguments, and a call
    without request is a call with that request.  The file is generated
    with these lines in it whenever its telemetry part is. *)
Theorem unresolved_input_type_zero_argument_call :
  (forall msg, In msg (message_type proto_file) ->
               full_name (package proto_file) (msg_name msg) <> input_type method) ->
  input_fields msg_map method = [] /\
  arg_list_str req_cls (input_fields msg_map method) = zero_args /\
  emit_method msg_map service method !! 0%nat
    = Some (Line Skip ("    def " +:+ Util.to_snake_case (method_name method)
                         +:+ "(" +:+ zero_args +:+ ") -> " +:+ ret_type method +:+ ":")) /\
  emit_method msg_map service method !! 3%nat
    = Some (Line (Construct req_cls []) ("            request = pb." +:+ req_cls +:+ "()")) /\
  (forall e,
     supplied e = None ->
     call_method e (emit_method msg_map service method)
     = call_method {| supplied := Some (built e req_cls []); built := built e;
                      rpc_call := rpc_call e; parses := parses e |}
         (emit_method msg_map service method)) /\
  (forall request telemetry,
     emit_telemetry request proto_file = Py.Return telemetry ->
     In service (Descriptor.service proto_file) ->
     In method (service_method service) ->
     exists name ls,
       generate_file request proto_file = Py.Return (name, ls) /\
       forall l, In l (emit_method msg_map service method) -> In l ls).
Proof.
  intros Hnone. apply get_message_map_None in Hnone.
  assert (Hf : input_fields msg_map method = []).
  { unfold input_fields. subst msg_map. now rewrite Hnone. }
  split; [exact Hf|]. split; [now rewrite Hf|].
  unfold emit_method. rewrite Hf. cbn [map arg_list_str Py.join String.concat].
  split; [reflexivity|]. split; [reflexivity|]. split.
  - intros e He. unfold call_method. cbn [supplied]. rewrite He.
    destruct (Py.endswith (output_type method) "Empty"); reflexivity.
  - intros request telemetry Htel Hservice Hmethod.
    unfold generate_file. rewrite Htel. cbn [Py.bind].
    eexists _, _. split; [reflexivity|]. intros l Hl.
    apply in_or_app. right. apply in_or_app. left.
    apply in_concat. exists (emit_service (get_message_map proto_file) service).
    split; [now apply in_map|].
    unfold emit_service. apply in_or_app. right.
    apply in_concat. exists (emit_method (get_message_map proto_file) service method).
    split; [now apply in_map|].
    unfold emit_method. fold msg_map. rewrite Hf.
    cbn [map arg_list_str Py.join String.concat]. exact Hl.
Qed.

End Unresolved.

Lemma unresolved_input_type_zero_argument_call_witness :
  (forall msg, In msg (Descriptor.message_type Sample.stray_proto) ->
               GenClientPython.full_name (Descriptor.package Sample.stray_proto)
                 (Descriptor.msg_name msg)
               <> Descriptor.input_type Sample.stray_method) /\
  GenClientPython.arg_list_str "LedRequest"
    (GenClientPython.input_fields (GenClientPython.get_message_map Sample.stray_proto)
       Sample.stray_method)
  = "self, request: Optional[pb.LedRequest] = None" /\
  PyCode.call_method Sample.silent_env
    (GenClientPython.emit_method (GenClientPython.get_message_map Sample.stray_proto)
       Sample.stray_service Sample.stray_method)
  = PyCode.call_method
      {| PyCode.supplied := Some []; PyCode.built := PyCode.built Sample.silent_env;
         PyCode.rpc_call := PyCode.rpc_call Sample.silent_env;
         PyCode.parses := PyCode.parses Sample.silent_env |}
      (GenClientPython.emit_method (GenClientPython.get_message_map Sample.stray_proto)
         Sample.stray_service Sample.stray_method) /\
  exists name ls,
    GenClientPython.generate_file Sample.request Sample.stray_proto = Py.Return (name, ls).
Proof.
  assert (Hnone : forall msg, In msg (Descriptor.message_type Sample.stray_proto) ->
               GenClientPython.full_name (Descriptor.package Sample.stray_proto)
                 (Descriptor.msg_name msg)
               <> Descriptor.input_type Sample.stray_method).
  { intros msg [<- | []]. discriminate. }
  pose proof (unresolved_input_type_zero_argument_call Sample.stray_proto
                Sample.stray_service Sample.stray_method Hnone)
    as (_ & Hargs & _ & _ & Hcall & Hfile).
  split; [exact Hnone|]. split; [exact Hargs|]. split.
  - exact (Hcall Sample.silent_env eq_refl).
  - destruct (Hfile Sample.request [] eq_refl (or_introl eq_refl) (or_introl eq_refl))
      as (name & ls & Hgen & _).
    now exists name, ls.
Defined.

(** ** The custom option key of a run *)

Section ZenohKey.
Import Descriptor Util.

Let is_key (ext : FieldDescriptorProto) : bool := Py.endswith (field_name ext) "zenoh_key".

Lemma find_in_extensions_None exts :
  find_in_extensions exts = None <-> forall ext, In ext exts -> is_key ext = false.
Proof.
  induction exts as [|x rest IH]; cbn [find_in_extensions].
  - split; [intros _ ? [] | reflexivity].
  - fold (is_key x). destruct (is_key x) eqn:Hx.
    + split; [discriminate|]. intros H. specialize (H x (or_introl eq_refl)). congruence.
    + rewrite IH. split.
      * intros H ext [<-|Hin]; [exact Hx | now apply H].
      * intros H ext Hin. apply H. now right.
Qed.

Lemma find_in_extensions_first pre ext post :
  (forall x, In x pre -> is_key x = false) -> is_key ext = true ->
  find_in_extensions (pre ++ ext :: post) = Some (field_number ext).
Proof.
  intros Hpre Hext. induction pre as [|x pre IH]; cbn [app find_in_extensions].
  - fold (is_key ext). now rewrite Hext.
  - fold (is_key x). rewrite (Hpre x (or_introl eq_refl)).
    apply IH. intros y Hy. apply Hpre. now right.
Qed.

Lemma find_in_extensions_Some exts number :
  find_in_extensions exts = Some number ->
  exists ext, In ext exts /\ is_key ext = true /\ field_number ext = number.
Proof.
  induction exts as [|x rest IH]; cbn [find_in_extensions]; [discriminate|].
  fold (is_key x). destruct (is_key x) eqn:Hx.
  - intros [= <-]. exists x. repeat split; [now left | exact Hx].
  - intros H. destruct (IH H) as (ext & Hin & Hk & Hn).
    exists ext. repeat split; [now right | exact Hk | exact Hn].
Qed.

Lemma find_in_files_None files :
  find_in_files files = None <->
  forall f ext, In f files -> In ext (extension f) -> is_key ext = false.
Proof.
  induction files as [|f rest IH]; cbn [find_in_files].
  - split; [intros _ ? ? [] | reflexivity].
  - destruct (find_in_extensions (extension f)) as [n|] eqn:Hf.
    + split; [discriminate|]. intros H.
      apply find_in_extensions_Some in Hf as (ext & Hin & Hk & _).
      specialize (H f ext (or_introl eq_refl) Hin). congruence.
    + rewrite IH. rewrite find_in_extensions_None in Hf. split.
      * intros H g ext [<-|Hg] Hin; [now apply Hf | now apply (H g)].
      * intros H g ext Hg. apply H. now right.
Qed.

Lemma find_in_files_Some files number :
  find_in_files files = Some number ->
  exists f ext, In f files /\ In ext (extension f) /\ is_key ext = true
                /\ field_number ext = number.
Proof.
  induction files as [|f rest IH]; cbn [find_in_files]; [discriminate|].
  destruct (find_in_extensions (extension f)) as [n|] eqn:Hf.
  - intros [= <-]. apply find_in_extensions_Some in Hf as (ext & Hin & Hk & Hn).
    exists f, ext. repeat split; [now left | exact Hin | exact Hk | exact Hn].
  - intros H. destruct (IH H) as (g & ext & Hg & Hin & Hk & Hn).
    exists g, ext. repeat split; [now right | exact Hin | exact Hk | exact Hn].
Qed.

Lemma find_in_files_first before f after pre ext post :
  (forall g x, In g before -> In x (extension g) -> is_key x = false) ->
  extension f = pre ++ ext :: post ->
  (forall x, In x pre -> is_key x = false) -> is_key ext = true ->
  find_in_files (before ++ f :: after) = Some (field_number ext).
Proof.
  intros Hbefore Hf Hpre Hext.
  induction before as [|g before IH]; cbn [app find_in_files].
  - now rewrite Hf, find_in_extensions_first.
  - replace (find_in_extensions (extension g)) with (@None Z).
    + apply IH. intros h x Hh. apply Hbefore. now right.
    + symmetry. apply find_in_extensions_None. intros x. apply Hbefore. now left.
Qed.

Variable request : CodeGeneratorRequest.

(** C5. The option key of a run is 50001 when no file of the request
    declares an extension whose name ends with "zenoh_key"; otherwise it
    is the number of such an extension, the first one in the order of the
    files and of their declarations.  The generators look every message
    up with this one number: the client emitter and the server emitter
    depend on the request through it alone. *)
Theorem zenoh_key_default_override_uniform :
  ((forall f ext, In f (proto_file request) -> In ext (extension f) -> is_key ext = false) ->
   find_zenoh_key request = 50001) /\
  ((exists f ext, In f (proto_file request) /\ In ext (extension f) /\ is_key ext = true) ->
   exists f ext, In f (proto_file request) /\ In ext (extension f) /\ is_key ext = true
                 /\ find_zenoh_key request = field_number ext) /\
  (forall before f after pre ext post,
     proto_file request = before ++ f :: after ->
     extension f = pre ++ ext :: post ->
     (forall g x, In g before -> In x (extension g) -> is_key x = false) ->
     (forall x, In x pre -> is_key x = false) ->
     is_key ext = true ->
     find_zenoh_key request = field_number ext) /\
  (forall msg,
     GenClientPython.telemetry_key request msg
     = Py.bind (get_option_value (msg_options msg) (find_zenoh_key request))
         (fun zenoh_key =>
            Py.Return
              (if Py.truthy_opt zenoh_key then default EmptyString zenoh_key
               else "/telemetry/"
                      +:+ to_snake_case (Py.replace (msg_name msg) "Telemetry" "")))) /\
  (forall f,
     GenServerNanopb.emit_zenoh_keys request f
     = Py.bind (GenServerNanopb.emit_defines (package f) (find_zenoh_key request)
                  (message_type f))
         (fun defines =>
            Py.bind (GenServerNanopb.any_zenoh_key (find_zenoh_key request) (message_type f))
              (fun some => Py.Return (defines ++ (if some then [EmptyString] else []))))) /\
  (forall request',
     find_zenoh_key request' = find_zenoh_key request ->
     (forall msg, GenClientPython.telemetry_key request' msg
                  = GenClientPython.telemetry_key request msg) /\
     (forall f, GenServerNanopb.emit_zenoh_keys request' f
                = GenServerNanopb.emit_zenoh_keys request f)).
Proof.
  unfold find_zenoh_key. repeat split.
  - intros H. apply find_in_files_None in H. now rewrite H.
  - intros (f & ext & Hf & Hin & Hk).
    destruct (find_in_files (proto_file request)) as [n|] eqn:Hfind.
    + apply find_in_files_Some in Hfind as (g & x & Hg & Hx & Hkx & <-).
      now exists g, x.
    + rewrite find_in_files_None in Hfind. specialize (Hfind f ext Hf Hin). congruence.
  - intros before f after pre ext post -> Hf Hbefore Hpre Hext.
    now rewrite (find_in_files_first before f after pre ext post).
  - intros msg. unfold GenClientPython.telemetry_key, find_zenoh_key. now rewrite H.
  - intros f. unfold GenServerNanopb.emit_zenoh_keys, find_zenoh_key. now rewrite H.
Qed.

End ZenohKey.

Lemma zenoh_key_default_override_uniform_witness :
  (forall f ext, In f (Descriptor.proto_file Sample.request) ->
                 In ext (Descriptor.extension f) ->
                 Py.endswith (Descriptor.field_name ext) "zenoh_key" = false) /\
  Util.find_zenoh_key Sample.request = 50001 /\
  Util.find_zenoh_key Sample.keyed_request = 50002 /\
  (exists f ext,
     In f (Descriptor.proto_file Sample.keyed_request) /\
     In ext (Descriptor.extension f) /\
     Py.endswith (Descriptor.field_name ext) "zenoh_key" = true /\
     Util.find_zenoh_key Sample.keyed_request = Descriptor.field_number ext) /\
  GenClientPython.telemetry_key Sample.empty_request Sample.sensor_telemetry
    = GenClientPython.telemetry_key Sample.request Sample.sensor_telemetry.
Proof.
  assert (Hnone : forall f ext, In f (Descriptor.proto_file Sample.request) ->
                                In ext (Descriptor.extension f) ->
                                Py.endswith (Descriptor.field_name ext) "zenoh_key" = false).
  { intros f ext [<- | []] []. }
  split; [exact Hnone|]. split; [|split; [|split]].
  - exact (proj1 (zenoh_key_default_override_uniform Sample.request) Hnone).
  - refine (proj1 (proj2 (proj2 (zenoh_key_default_override_uniform Sample.keyed_request)))
              [Sample.service_proto] Sample.options_proto [] []
              Sample.zenoh_key_extension [] eq_refl eq_refl _ _ eq_refl).
    + intros g x [<- | []] [].
    + intros x [].
  - refine (proj1 (proj2 (zenoh_key_default_override_uniform Sample.keyed_request)) _).
    exists Sample.options_proto, Sample.zenoh_key_extension.
    split; [right; left; reflexivity|]. split; [left; reflexivity | reflexivity].
  - exact (proj1 (proj2 (proj2 (proj2 (proj2 (proj2
             (zenoh_key_default_override_uniform Sample.request)))))
             Sample.empty_request eq_refl) Sample.sensor_telemetry).
Defined.

(** ** Telemetry topics *)

Lemma all_chars_app P a b :
  Py.all_chars P (a +:+ b) = Py.all_chars P a && Py.all_chars P b.
Proof.
  induction a as [|c a IH]; [reflexivity|].
  simpl. rewrite IH. apply andb_assoc.
Qed.





Lemma all_chars_impl (P Q : ascii -> bool) s :
  (forall c, P c = true -> Q c = true) ->
  Py.all_chars P s = true -> Py.all_chars Q s = true.
Proof.
  intros H. induction s as [|c s IH]; cbn; [reflexivity|].
  intros [Hc Hs]%andb_true_iff. now rewrite (H c Hc), IH.
Qed.






Section Telemetry.
Import Descriptor PyCode GenClientPython.

Variable request : CodeGeneratorRequest.
Variable msg : DescriptorProto.
Variable device_id : string.


End Telemetry.



(** ** The sidecar registry *)

Section Sidecar.
Import GenServerNanopb.

Let not_space (c : ascii) : bool := negb (Py.is_space c).

Lemma truthy_app_r a b : Py.truthy b = true -> Py.truthy (a +:+ b) = true.
Proof. destruct a; [trivial | reflexivity]. Qed.

Lemma lstrip_word s : Py.starts_word s = true -> Py.lstrip s = s.
Proof.
  destruct s as [|c s]; [discriminate|]. cbn.
  intros H. apply negb_true_iff in H. now rewrite H.
Qed.

Lemma rstrip_app a w :
  Py.truthy (Py.rstrip w) = true -> Py.rstrip (a +:+ w) = a +:+ Py.rstrip w.
Proof.
  intros Hw. induction a as [|c a IH]; [reflexivity|].
  simpl. rewrite IH, (truthy_app_r a _ Hw). now rewrite andb_false_r.
Qed.






Lemma strip_directive P M F :
  Py.all_chars not_space P = true -> Py.all_chars not_space M = true ->
  Py.all_chars not_space F = true ->
  Py.strip (directive P M F) = directive P M F.
Proof.
  intros HP HMs HFs.
  set (path := P +:+ "." +:+ M +:+ "." +:+ F).
  assert (Hpath : Py.all_chars not_space path = true).
  { subst path. rewrite !all_chars_app, HP, HMs, HFs. reflexivity. }
  assert (Hstart : Py.starts_word (path +:+ " type:FT_POINTER") = true).
  { assert (Htruthy : Py.truthy path = true) by (subst path; now apply truthy_app_r).
    destruct path as [|c path']; [discriminate|]. simpl in Hpath |- *.
    apply andb_true_iff in Hpath as [Hc _]. exact Hc. }
  unfold Py.strip, directive. fold path.
  rewrite lstrip_word by exact Hstart. now rewrite rstrip_app.
Qed.


Lemma read_lines_elem lines :
  forall (acc : gset string) m,
    m ∈ read_lines lines acc <->
    m ∈ acc \/ exists line, In line lines /\ pointer_message line = Some m.
Proof.
  induction lines as [|l rest IH]; intros acc m; cbn [read_lines].
  - split; [now left | intros [H | (line & [] & _)]; exact H].
  - rewrite IH. destruct (pointer_message l) as [name|] eqn:Hl.
    + rewrite elem_of_union, elem_of_singleton. split.
      * intros [[-> | H] | (line & Hin & Hline)].
        -- right. exists l. split; [now left | exact Hl].
        -- now left.
        -- right. exists line. split; [now right | exact Hline].
      * intros [H | (line & [<- | Hin] & Hline)].
        -- left. now right.
        -- left. left. congruence.
        -- right. now exists line.
    + split.
      * intros [H | (line & Hin & Hline)]; [now left|].
        right. exists line. split; [now right | exact Hline].
      * intros [H | (line & [<- | Hin] & Hline)]; [now left | congruence |].
        right. now exists line.
Qed.

Lemma exists_Some fs path :
  exists_ fs path = true -> Py.truthy path = true /\ exists file, fs path = Some file.
Proof.
  unfold exists_. intros [Ht Hf]%andb_true_iff. split; [exact Ht|].
  destruct (fs path) as [file|]; [now exists file | discriminate].
Qed.

Lemma search_paths_exists fs options_filename proto_paths path :
  search_paths fs options_filename proto_paths = Some path -> exists_ fs path = true.
Proof.
  induction proto_paths as [|p rest IH]; cbn [search_paths]; [discriminate|].
  destruct (exists_ fs (Py.path_join p options_filename)) eqn:H1; [now intros [= <-]|].
  destruct (exists_ fs (Py.path_join p (Py.basename options_filename))) eqn:H2;
    [now intros [= <-] | exact IH].
Qed.

Lemma find_options_file_exists fs proto_file_name proto_paths path :
  find_options_file fs proto_file_name proto_paths = Some path -> exists_ fs path = true.
Proof.
  unfold find_options_file.
  repeat match goal with
         | |- context [if ?b then _ else _] => destruct b eqn:?
         | |- context [match search_paths ?a ?b ?c with _ => _ end] =>
             destruct (search_paths a b c) eqn:?
         end;
    intros [= <-]; try assumption;
    eauto using search_paths_exists.
Qed.

Lemma parse_options_file_found fs proto_file_name proto_paths path file :
  find_options_file fs proto_file_name proto_paths = Some path ->
  fs path = Some file ->
  parse_options_file fs proto_file_name proto_paths
  = Py.Return (read_lines (file_lines file) ∅,
               match read_error file with
               | None => []
               | Some msg => [warning (Py.Exception "OSError" msg)]
               end).
Proof.
  intros Hfind Hfile. unfold parse_options_file. rewrite Hfind.
  apply find_options_file_exists, exists_Some in Hfind as [Ht _].
  cbn [Py.truthy_opt]. rewrite Ht. cbn [negb].
  change (default EmptyString (Some path)) with path. rewrite Hfile.
  now destruct (read_error file).
Qed.




Lemma append_cons x (a b : string) : String x a +:+ b = String x (a +:+ b).
Proof. reflexivity. Qed.

Lemma append_assoc (a b c : string) : (a +:+ b) +:+ c = a +:+ b +:+ c.
Proof. induction a as [|x a IH]; [reflexivity|]. now rewrite !append_cons, IH. Qed.

Lemma append_nil_r (a : string) : a +:+ "" = a.
Proof. induction a as [|x a IH]; [reflexivity|]. now rewrite append_cons, IH. Qed.
















Variables (fs : FileSystem) (proto_file_name : string) (proto_paths : list string).



End Sidecar.



(** ** Further properties of [get_option_value] *)











Lemma varint_loop_raises rounds :
  forall mask buffer pos acc shift e,
    Decoder.varint_loop rounds mask buffer pos acc shift = Py.Raise e ->
    e = Py.IndexError \/ e = Decoder.too_many_bytes \/ e = Py.Diverged.
Proof.
  induction rounds as [|r IH]; intros mask buffer pos acc shift e.
  - intros [= <-]. now right; right.
  - cbn [Decoder.varint_loop]. unfold Py.index.
    destruct (buffer !! Z.to_nat pos) as [b|]; cbn [Py.bind]; [|intros [= <-]; now left].
    destruct (Z.land b 128 =? 0); [discriminate|].
    destruct (64 <=? shift + 7); [intros [= <-]; now right; left|].
    apply IH.
Qed.

Lemma VarintDecoder_raises mask buffer pos e :
  Decoder.VarintDecoder mask buffer pos = Py.Raise e ->
  (e = Py.IndexError \/ e = Decoder.too_many_bytes \/ e = Py.UnicodeDecodeError
  \/ e = Py.Diverged).
Proof.
  intros H. apply varint_loop_raises in H as [-> | [-> | ->]]; tauto.
Qed.

Lemma scan_raises rounds :
  forall data k pos e,
    Util.scan rounds data k pos = Py.Raise e ->
    (e = Py.IndexError \/ e = Decoder.too_many_bytes \/ e = Py.UnicodeDecodeError
    \/ e = Py.Diverged).
Proof.
  induction rounds as [|r IH]; intros data k pos e.
  - intros [= <-]. tauto.
  - cbn [Util.scan]. destruct (pos <? _); [|discriminate].
    destruct (Decoder.DecodeVarint32 data pos) as [[tag pos1]|e'] eqn:Htag; cbn [Py.bind].
    2:{ intros [= ->]. exact (VarintDecoder_raises _ _ _ _ Htag). }
    destruct (Z.shiftr tag 3 =? k).
    + destruct (Z.land tag 7 =? 2); [|discriminate].
      destruct (Decoder.DecodeVarint32 data pos1) as [[len pos2]|e'] eqn:Hlen; cbn [Py.bind].
      2:{ intros [= ->]. exact (VarintDecoder_raises _ _ _ _ Hlen). }
      unfold Py.decode_utf8. destruct (Py.utf8_valid _); cbn [Py.bind]; [discriminate|].
      intros [= <-]. tauto.
    + destruct (Util.skip_field data (Z.land tag 7) pos1) as [pos2|e'] eqn:Hskip;
        cbn [Py.bind]; [apply IH|].
      intros [= ->]. revert Hskip. unfold Util.skip_field.
      destruct (Z.land tag 7 =? 0).
      { destruct (Decoder.DecodeVarint64 data pos1) as [[? ?]|e'] eqn:H64; cbn [Py.bind];
          [discriminate|].
        intros [= ->]. exact (VarintDecoder_raises _ _ _ _ H64). }
      destruct (Z.land tag 7 =? 1); [discriminate|].
      destruct (Z.land tag 7 =? 2).
      { destruct (Decoder.DecodeVarint32 data pos1) as [[? ?]|e'] eqn:H32; cbn [Py.bind];
          [discriminate|].
        intros [= ->]. exact (VarintDecoder_raises _ _ _ _ H32). }
      destruct (Z.land tag 7 =? 5); discriminate.
Qed.







(** ** Further properties of [to_snake_case] *)

Section Underscores.




Lemma sub_from_skip m a b :
  Py.sub_from m (String.length a) (a +:+ b) = Py.sub_from m 0 b.
Proof.
  induction a as [|c a IH]; [reflexivity|].
  rewrite append_cons. cbn [String.length Py.sub_from]. exact IH.
Qed.










End Underscores.

Section CamelCase.
Import Names.

Let tails (ws : list string) : string := String.concat "" (map (String.append "_") ws).

Lemma az_not_AZ c : Py.is_az c = true -> Py.is_AZ c = false.
Proof.
  destruct c as [[] [] [] [] [] [] [] []]; vm_compute; intros H;
    (reflexivity || discriminate H).
Qed.

Lemma az_is_dot c : Py.is_az c = true -> Py.is_dot c = true.
Proof.
  destruct c as [[] [] [] [] [] [] [] []]; vm_compute; intros H;
    (reflexivity || discriminate H).
Qed.

Lemma AZ_not_az c : Py.is_AZ c = true -> Py.is_az c = false /\ Py.is_09 c = false.
Proof.
  destruct c as [[] [] [] [] [] [] [] []]; vm_compute; intros H;
    (split; reflexivity) || discriminate H.
Qed.

Lemma concat_cons w ws : String.concat "" (w :: ws) = w +:+ String.concat "" ws.
Proof. destruct ws; cbn [String.concat]; [now rewrite append_nil_r | reflexivity]. Qed.

Lemma capitalized_inv w :
  Names.capitalized w = true ->
  exists u l, w = String u l /\ Py.is_AZ u = true /\ Py.truthy l = true
              /\ Py.all_chars Py.is_az l = true.
Proof.
  destruct w as [|u l]; [discriminate|]. cbn.
  intros [[Hu Hl]%andb_true_iff Ha]%andb_true_iff. now exists u, l.
Qed.

Lemma span_az_words l ws :
  Py.all_chars Py.is_az l = true -> Forall (fun w => Names.capitalized w = true) ws ->
  Py.span_az (l +:+ String.concat "" ws) = l.
Proof.
  intros Hl Hws. induction l as [|c l IH].
  - destruct Hws as [|w ws Hw _]; [reflexivity|].
    apply capitalized_inv in Hw as (u & l & -> & Hu & _).
    rewrite concat_cons.
    change (Py.span_az (String u (l +:+ String.concat "" ws)) = "").
    cbn [Py.span_az]. now rewrite (proj1 (AZ_not_az u Hu)).
  - cbn in Hl. apply andb_true_iff in Hl as [Hc Hl].
    rewrite append_cons. cbn [Py.span_az]. now rewrite Hc, IH.
Qed.

(** The text a non-empty lower-case run followed by words gives. *)
Let after_run1 (l : string) (ws : list string) : string :=
  match ws with
  | [] => l
  | w :: rest => l +:+ "_" +:+ w +:+ pairs rest
  end.

Lemma pass1 ws :
  Forall (fun w => Names.capitalized w = true) ws ->
  Py.sub_from Util.pat_word 0 (String.concat "" ws) = pairs ws /\
  forall l, Py.all_chars Py.is_az l = true -> Py.truthy l = true ->
    Py.sub_from Util.pat_word 0 (l +:+ String.concat "" ws) = after_run1 l ws.
Proof.
  induction 1 as [|w ws Hw Hws [IH0 IH1]].
  - split; [reflexivity|]. intros l Hl _. cbn [String.concat after_run1].
    rewrite append_nil_r. apply (sub_fixed _ _ pat_word_needs_AZ); try reflexivity.
    revert Hl. apply all_chars_impl. intros c Hc. now rewrite az_not_AZ.
  - assert (Hrun : forall l, Py.all_chars Py.is_az l = true -> Py.truthy l = true ->
              Py.sub_from Util.pat_word 0 (l +:+ String.concat "" (w :: ws))
              = after_run1 l (w :: ws)).
    { apply capitalized_inv in Hw as (u & l2 & -> & Hu & Hl2t & Hl2).
      induction l as [|c l IHl]; [discriminate|]. intros Hl _.
      cbn in Hl. apply andb_true_iff in Hl as [Hc Hl].
      destruct l as [|c' l'].
      - cbn [after_run1]. rewrite concat_cons, !append_cons.
        change ("" +:+ String u (l2 +:+ String.concat "" ws))
          with (String u (l2 +:+ String.concat "" ws)).
        cbn [Py.sub_from]. unfold Util.pat_word at 1.
        rewrite (span_az_words l2 ws Hl2 Hws), (az_is_dot c Hc), Hu, Hl2t.
        cbn [andb Nat.add Nat.pred Py.sub_from].
        rewrite sub_from_skip, IH0. rewrite !append_cons.
        change ("" +:+ "_" +:+ String u l2 +:+ pairs ws)
          with (String "_"%char (String u (l2 +:+ pairs ws))).
        change ("_" +:+ String u l2) with (String "_"%char (String u l2)).
        now rewrite ?append_cons.
      - rewrite append_cons. cbn [Py.sub_from].
        rewrite append_cons at 1.
        rewrite pat_word_needs_AZ.
        2:{ cbn in Hl. apply andb_true_iff in Hl as [Hc' _]. now apply az_not_AZ. }
        rewrite (IHl Hl eq_refl). cbn [after_run1]. now rewrite !append_cons. }
    split; [|exact Hrun].
    apply capitalized_inv in Hw as (u & l & -> & Hu & Hlt & Hl).
    rewrite concat_cons, append_cons. cbn [Py.sub_from].
    destruct l as [|c l]; [discriminate|].
    rewrite append_cons at 1. rewrite pat_word_needs_AZ.
    2:{ cbn in Hl. apply andb_true_iff in Hl as [Hc _]. now apply az_not_AZ. }
    destruct Hws as [|w2 ws2 Hw2 Hws2].
    + cbn [String.concat pairs]. rewrite append_nil_r. f_equal.
      apply (sub_fixed Util.pat_word (String c l) pat_word_needs_AZ); try reflexivity.
      revert Hl. apply all_chars_impl. intros x Hx. now rewrite az_not_AZ.
    + rewrite (IH1 _ Hl eq_refl). cbn [after_run1 pairs]. now rewrite !append_cons.
Qed.

Lemma hump_none_lower c rest :
  (match rest with EmptyString => True | String u _ => Py.is_AZ u = false end) ->
  Util.pat_hump (String c rest) = None.
Proof.
  destruct rest as [|u r]; [reflexivity|]. intros Hu. now apply pat_hump_needs_AZ.
Qed.

Lemma hump_none_upper u rest : Py.is_AZ u = true -> Util.pat_hump (String u rest) = None.
Proof.
  intros Hu. destruct rest as [|x r]; [reflexivity|]. cbn [Util.pat_hump].
  destruct (AZ_not_az u Hu) as [-> ->]. reflexivity.
Qed.

Lemma hump_run l u rest :
  Py.all_chars Py.is_az l = true -> Py.is_AZ u = true ->
  Py.sub_from Util.pat_hump 0 (l +:+ String "_"%char (String u rest))
  = l +:+ String "_"%char (String u (Py.sub_from Util.pat_hump 0 rest)).
Proof.
  intros Hl Hu. induction l as [|c l IH].
  - change ("" +:+ String "_"%char (String u rest)) with (String "_"%char (String u rest)).
    cbn [Py.sub_from]. rewrite (hump_none_upper u rest Hu).
    unfold Util.pat_hump.
    change (Py.is_az "_" || Py.is_09 "_") with false. reflexivity.
  - cbn in Hl. apply andb_true_iff in Hl as [Hc Hl].
    rewrite !append_cons. cbn [Py.sub_from].
    rewrite hump_none_lower, (IH Hl); [reflexivity|].
    destruct l as [|c' l']; [reflexivity|]. rewrite append_cons.
    cbn in Hl. apply andb_true_iff in Hl as [Hc' _]. now apply az_not_AZ.
Qed.

Lemma tails_cons w ws : tails (w :: ws) = "_" +:+ w +:+ tails ws.
Proof. unfold tails. cbn [map]. now rewrite concat_cons, append_assoc. Qed.

Lemma hump_lower_run l :
  Py.all_chars Py.is_az l = true -> Py.sub_from Util.pat_hump 0 l = l.
Proof.
  intros Hl. apply (sub_fixed Util.pat_hump l pat_hump_needs_AZ); try reflexivity.
  revert Hl. apply all_chars_impl. intros c Hc. now rewrite az_not_AZ.
Qed.

Lemma pass2_run n :
  forall ws, (length ws <= n)%nat ->
    Forall (fun w => Names.capitalized w = true) ws ->
    forall l, Py.all_chars Py.is_az l = true -> Py.truthy l = true ->
      Py.sub_from Util.pat_hump 0 (l +:+ pairs ws) = l +:+ tails ws.
Proof.
  induction n as [|n IH]; intros ws Hn Hws.
  - destruct ws; [|cbn in Hn; lia]. intros l Hl _. cbn [pairs]. unfold tails. cbn.
    rewrite append_nil_r. now apply hump_lower_run.
  - induction l as [|c l IHl]; [discriminate|]. intros Hl _.
    cbn in Hl. apply andb_true_iff in Hl as [Hc Hl].
    rewrite append_cons. destruct l as [|c' l'].
    + change ("" +:+ pairs ws) with (pairs ws).
      change (String c "" +:+ tails ws) with (String c (tails ws)).
      destruct Hws as [|w1 ws1 Hw1 Hws1]; [reflexivity|].
      apply capitalized_inv in Hw1 as (u1 & l1 & -> & Hu1 & Hl1t & Hl1).
      assert (Hmatch : forall rest, Util.pat_hump (String c (String u1 rest))
                = Some (2%nat, String c ("_" +:+ String u1 EmptyString))).
      { intros rest. cbn [Util.pat_hump]. now rewrite Hc, Hu1. }
      destruct Hws1 as [|w2 ws2 Hw2 Hws2].
      * cbn [pairs Py.sub_from]. rewrite Hmatch. cbn [Nat.pred Py.sub_from].
        rewrite (hump_lower_run l1 Hl1), tails_cons. unfold tails. cbn [map String.concat].
        now rewrite append_nil_r.
      * apply capitalized_inv in Hw2 as (u2 & l2 & -> & Hu2 & Hl2t & Hl2).
        cbn [pairs]. rewrite !append_cons. cbn [Py.sub_from]. rewrite Hmatch.
        cbn [Nat.pred Py.sub_from].
        change ("" +:+ String u2 (l2 +:+ pairs ws2)) with (String u2 (l2 +:+ pairs ws2)).
        rewrite (hump_run l1 u2 _ Hl1 Hu2).
        rewrite (IH ws2) by (try assumption; cbn in Hn; lia).
        rewrite !tails_cons.
        repeat first [rewrite append_cons | rewrite append_assoc
                     | progress change (EmptyString +:+ ?x) with x].
        reflexivity.
    + cbn [Py.sub_from].
      change (String c' l' +:+ pairs ws) with (String c' (l' +:+ pairs ws)) at 1.
      rewrite hump_none_lower.
      2:{ cbn in Hl. apply andb_true_iff in Hl as [Hc' _]. now apply az_not_AZ. }
      rewrite (IHl Hl eq_refl). now rewrite !append_cons.
Qed.

Ltac norm_str :=
  repeat first [rewrite append_cons | rewrite append_assoc | rewrite append_nil_r
               | progress change (EmptyString +:+ ?x) with x].

Lemma join_tails w ws : Py.join "_" (w :: ws) = w +:+ tails ws.
Proof.
  unfold Py.join. revert w. induction ws as [|w2 ws IH]; intros w.
  - unfold tails. cbn. now rewrite append_nil_r.
  - cbn [String.concat]. cbn [String.concat] in IH. rewrite IH, tails_cons. reflexivity.
Qed.

Lemma pass2_start ws :
  Forall (fun w => Names.capitalized w = true) ws ->
  Py.sub_from Util.pat_hump 0 (pairs ws) = Py.join "_" ws.
Proof.
  intros Hws. destruct Hws as [|w1 ws1 Hw1 Hws1]; [reflexivity|].
  rewrite join_tails.
  apply capitalized_inv in Hw1 as (u1 & l1 & -> & Hu1 & Hl1t & Hl1).
  destruct Hws1 as [|w2 ws2 Hw2 Hws2].
  - cbn [pairs Py.sub_from]. rewrite (hump_none_upper u1 l1 Hu1), (hump_lower_run l1 Hl1).
    unfold tails. cbn. now rewrite append_nil_r.
  - apply capitalized_inv in Hw2 as (u2 & l2 & -> & Hu2 & Hl2t & Hl2).
    cbn [pairs]. norm_str. cbn [Py.sub_from]. rewrite hump_none_upper by exact Hu1.
    rewrite (hump_run l1 u2 _ Hl1 Hu2).
    rewrite (pass2_run (length ws2) ws2) by (try assumption; lia).
    rewrite tails_cons. now norm_str.
Qed.

Lemma pass2_after_run l ws :
  Forall (fun w => Names.capitalized w = true) ws ->
  Py.all_chars Py.is_az l = true -> Py.truthy l = true ->
  Py.sub_from Util.pat_hump 0 (after_run1 l ws) = Py.join "_" (l :: ws).
Proof.
  intros Hws Hl Hlt. rewrite join_tails.
  destruct Hws as [|w1 ws1 Hw1 Hws1].
  - cbn [after_run1]. unfold tails. cbn. rewrite append_nil_r. now apply hump_lower_run.
  - apply capitalized_inv in Hw1 as (u1 & l1 & -> & Hu1 & Hl1t & Hl1).
    cbn [after_run1]. norm_str.
    rewrite (hump_run l u1 _ Hl Hu1).
    rewrite (pass2_run (length ws1) ws1) by (try assumption; lia).
    rewrite tails_cons. now norm_str.
Qed.

Lemma lower_app a b : Py.lower (a +:+ b) = Py.lower a +:+ Py.lower b.
Proof. induction a as [|c a IH]; [reflexivity|]. rewrite append_cons. cbn. now rewrite IH. Qed.

Lemma lower_join ws : Py.lower (Py.join "_" ws) = Py.join "_" (map Py.lower ws).
Proof.
  unfold Py.join. induction ws as [|w ws IH]; [reflexivity|].
  destruct ws as [|w2 ws]; [reflexivity|].
  cbn [String.concat map] in *. now rewrite !lower_app, IH.
Qed.

Lemma lower_az l : Py.all_chars Py.is_az l = true -> Py.lower l = l.
Proof.
  intros Hl. apply lower_fixed. revert Hl. apply all_chars_impl.
  intros c Hc. now rewrite az_not_AZ.
Qed.

(** X1.  A name written in camel case, that is a possibly empty run of
    lower-case letters followed by capitalized words, becomes its
    lower-cased words joined by underscores. *)
Theorem to_snake_case_camel_case (first : string) (ws : list string) :
  Py.all_chars Py.is_az first = true ->
  Forall (fun w => Names.capitalized w = true) ws ->
  Util.to_snake_case (first +:+ Py.join "" ws)
  = Py.join "_" ((if Py.truthy first then [first] else []) ++ map Py.lower ws).
Proof.
  intros Hfirst Hws. unfold Util.to_snake_case, Py.sub, Py.join at 1.
  destruct (pass1 ws Hws) as [H0 H1].
  destruct (Py.truthy first) eqn:Ht.
  - rewrite (H1 first Hfirst Ht), (pass2_after_run first ws Hws Hfirst Ht).
    rewrite lower_join. cbn [map app]. now rewrite (lower_az first Hfirst).
  - destruct first; [|discriminate].
    change ("" +:+ String.concat "" ws) with (String.concat "" ws).
    rewrite H0, (pass2_start ws Hws). apply lower_join.
Qed.

End CamelCase.

Lemma to_snake_case_camel_case_witness :
  Util.to_snake_case "startSensorStream" = "start_sensor_stream" /\
  Util.to_snake_case "SetLed" = "set_led".
Proof.
  split.
  - refine (to_snake_case_camel_case "start" ["Sensor"; "Stream"] eq_refl _).
    repeat constructor.
  - refine (to_snake_case_camel_case "" ["Set"; "Led"] eq_refl _).
    repeat constructor.
Defined.

(** ** Further properties of the client emitter *)

Section MessageMap.
Import Descriptor GenClientPython.

Lemma message_map_from_lookup package msgs :
  forall (msg_map : gmap string DescriptorProto) key,
    message_map_from package msgs msg_map !! key
    = match last (filter (fun m => full_name package (msg_name m) = key) msgs) with
      | Some m => Some m
      | None => msg_map !! key
      end.
Proof.
  induction msgs as [|msg rest IH]; intros msg_map key; [reflexivity|].
  cbn [message_map_from]. rewrite IH, filter_cons.
  destruct (decide (full_name package (msg_name msg) = key)) as [Heq|Hne].
  - rewrite last_cons, lookup_insert.
    destruct (last _); [reflexivity|]. now rewrite decide_True.
  - rewrite lookup_insert_ne by exact Hne. reflexivity.
Qed.

(** X7.  The map of a file resolves a qualified name to the last message of
    the file that bears it, and resolves no other name. *)
Theorem get_message_map_last_named (proto_file : FileDescriptorProto) (key : string) :
  get_message_map proto_file !! key
  = last (filter (fun m => full_name (package proto_file) (msg_name m) = key)
            (message_type proto_file)).
Proof.
  unfold get_message_map. rewrite message_map_from_lookup.
  now destruct (last _).
Qed.

End MessageMap.

Section GeneratedUnits.
Import Descriptor PyCode Generated GenClientPython.



Lemma rpc_calls_cons l ls :
  rpc_calls (l :: ls)
  = match op_of l with
    | CallRpc service method => (service, method) :: rpc_calls ls
    | _ => rpc_calls ls
    end.
Proof. destruct l as [[] t]; reflexivity. Qed.

Lemma key_exprs_cons l ls :
  key_exprs (l :: ls)
  = match op_of l with
    | SetKeyExpr body => body :: key_exprs ls
    | _ => key_exprs ls
    end.
Proof. destruct l as [[] t]; reflexivity. Qed.










Lemma generate_files_names request files :
  forall out, generate_files request files = Py.Return out ->
    map fst out
    = map (fun f => Py.replace (Py.basename (file_name f)) ".proto" "_client.py")
        (filter (fun f => selected request f = true) files).
Proof.
  induction files as [|f rest IH]; intros out.
  - intros [= <-]. reflexivity.
  - cbn [generate_files]. rewrite filter_cons.
    destruct (selected request f) eqn:Hsel.
    + rewrite decide_True by reflexivity.
      unfold generate_file at 1.
      destruct (emit_telemetry request f) as [t|e]; cbn [Py.bind]; [|discriminate].
      destruct (generate_files request rest) as [out'|e]; cbn [Py.bind]; [|discriminate].
      intros [= <-]. cbn [map fst]. now rewrite (IH out' eq_refl).
    + rewrite decide_False by discriminate. apply IH.
Qed.

(** X9.  [generate_code] answers with one unit per schema file that is to be
    generated and does not lie under google/protobuf, in the order of the
    request, named after the file; the other files give nothing. *)
Theorem generate_code_one_unit_per_selected_file (request : CodeGeneratorRequest)
    (out : list (string * string)) :
  generate_code request = Py.Return out ->
  map fst out
  = map (fun f => Py.replace (Py.basename (file_name f)) ".proto" "_client.py")
      (filter (fun f => selected request f = true) (proto_file request)) /\
  (forall f, ~ In (file_name f) (file_to_generate request) -> selected request f = false) /\
  (forall f, Py.contains (file_name f) "google/protobuf" = true ->
     selected request f = false).
Proof.
  intros H. split; [now apply generate_files_names|]. split.
  - intros f Hnot. unfold selected. rewrite bool_decide_eq_false_2; [reflexivity|].
    intros Hin. apply Hnot. now apply list_elem_of_In.
  - intros f Hg. unfold selected. rewrite Hg. apply andb_false_r.
Qed.

Lemma emit_subscribes_raises request msgs :
  forall m e, In m msgs ->
    Util.get_option_value (msg_options m) (Util.find_zenoh_key request) = Py.Raise e ->
    exists e', emit_subscribes request msgs = Py.Raise e'.
Proof.
  induction msgs as [|m0 ms IH]; intros m e; [intros []|].
  intros Hin Hraise. cbn [emit_subscribes].
  destruct (emit_subscribe request m0) as [ls0|e0] eqn:H0; cbn [Py.bind]; [|now exists e0].
  destruct Hin as [<- | Hin].
  - unfold emit_subscribe, telemetry_key in H0. rewrite Hraise in H0. discriminate H0.
  - destruct (IH m e Hin Hraise) as [e' ->]. now exists e'.
Qed.

Lemma generate_files_raises request files :
  forall f e, In f files -> selected request f = true ->
    generate_file request f = Py.Raise e ->
    exists e', generate_files request files = Py.Raise e'.
Proof.
  induction files as [|f0 rest IH]; intros f e; [intros []|].
  intros Hin Hsel Hraise. cbn [generate_files].
  destruct Hin as [<- | Hin].
  - rewrite Hsel, Hraise. now exists e.
  - destruct (IH f e Hin Hsel Hraise) as [e' He'].
    destruct (selected request f0); [|now exists e'].
    destruct (generate_file request f0) as [[name ls]|e0]; cbn [Py.bind]; [|now exists e0].
    rewrite He'. now exists e'.
Qed.

(** X10.  The client emitter has no guard around the option lookup: when the
    options of one telemetry message of one selected file cannot be read,
    [generate_code] raises and no unit at all is produced. *)
Theorem generate_code_aborts_on_unreadable_option (request : CodeGeneratorRequest)
    (proto_file : FileDescriptorProto) (msg : DescriptorProto) (e : Py.exn) :
  In proto_file (Descriptor.proto_file request) ->
  selected request proto_file = true ->
  In msg (message_type proto_file) ->
  Py.endswith (msg_name msg) "Telemetry" = true ->
  Util.get_option_value (msg_options msg) (Util.find_zenoh_key request) = Py.Raise e ->
  exists e', generate_code request = Py.Raise e'.
Proof.
  intros Hf Hsel Hm Hname Hraise.
  assert (Htel : In msg (telemetry_msgs proto_file)).
  { apply list_elem_of_In, list_elem_of_filter. split; [exact Hname|]. now apply list_elem_of_In. }
  destruct (emit_subscribes_raises request _ msg e Htel Hraise) as [e1 H1].
  assert (H2 : generate_file request proto_file = Py.Raise e1).
  { unfold generate_file, emit_telemetry.
    destruct (telemetry_msgs proto_file) as [|m ms]; [destruct Htel|].
    now rewrite H1. }
  exact (generate_files_raises request _ proto_file e1 Hf Hsel H2).
Qed.

End GeneratedUnits.


Lemma generate_code_one_unit_per_selected_file_witness :
  exists out,
    GenClientPython.generate_code Sample.keyed_request = Py.Return out /\
    map fst out = ["service_client.py"].
Proof.
  destruct (GenClientPython.generate_code Sample.keyed_request) as [out|e] eqn:H.
  - exists out. split; [reflexivity|].
    exact (proj1 (generate_code_one_unit_per_selected_file _ _ H)).
  - vm_compute in H. discriminate H.
Defined.

Lemma generate_code_aborts_on_unreadable_option_witness :
  Util.get_option_value (Descriptor.msg_options Cases.broken_telemetry)
    (Util.find_zenoh_key Cases.broken_request) = Py.Raise Py.IndexError /\
  exists e, GenClientPython.generate_code Cases.broken_request = Py.Raise e.
Proof.
  split; [reflexivity|].
  refine (generate_code_aborts_on_unreadable_option Cases.broken_request Cases.broken_proto
            Cases.broken_telemetry Py.IndexError _ eq_refl _ eq_refl eq_refl).
  - left. reflexivity.
  - right. left. reflexivity.
Defined.

Section CustomTopic.
Import Descriptor PyCode GenClientPython.

Variable request : CodeGeneratorRequest.
Variable msg : DescriptorProto.
Variable device_id : string.


End CustomTopic.


(** ** Further properties of the server emitter *)

Section NanopbNames.
Import GenServerNanopb.

Lemma replace_dots s :
  Py.all_chars (fun c => negb (Ascii.eqb c "."%char)) (Py.replace s "." "_") = true.
Proof.
  unfold Py.replace, Py.sub. induction s as [|c s IH]; [reflexivity|].
  cbn [Py.sub_from]. unfold Py.literal at 1. cbn [Py.startswith].
  destruct (Ascii.eqb "."%char c) eqn:Hc.
  - cbn [String.length Nat.pred]. exact IH.
  - cbn [Py.all_chars]. rewrite IH. rewrite Ascii.eqb_sym, Hc. reflexivity.
Qed.

Lemma split_on_no_sep sep s :
  Forall (fun x => Py.all_chars (fun c => negb (Ascii.eqb c sep)) x = true) (Py.split_on sep s).
Proof.
  induction s as [|c s IH]; [repeat constructor|].
  cbn [Py.split_on]. destruct (Ascii.eqb c sep) eqn:Hc.
  - constructor; [reflexivity | exact IH].
  - destruct (Py.split_on sep s) as [|h t]; [repeat constructor; cbn; now rewrite Hc|].
    apply Forall_cons in IH as [Hh Ht]. constructor; [|exact Ht].
    cbn [Py.all_chars]. now rewrite Hc, Hh.
Qed.

Lemma last_item_no_sep sep s :
  Py.all_chars (fun c => negb (Ascii.eqb c sep)) (Py.last_item (Py.split_on sep s)) = true.
Proof.
  unfold Py.last_item. pose proof (split_on_no_sep sep s) as H.
  induction H as [|x l Hx Hl IH]; [reflexivity|].
  destruct l; [exact Hx | exact IH].
Qed.

(** X15.  The nanopb name of the type of a method, built from the last segment
    of the qualified type name, holds no dot whatever the package is: the
    dots of the package become underscores. *)
Theorem get_nanopb_type_name_no_dot (proto_package type_name : string) :
  Py.all_chars (fun c => negb (Ascii.eqb c "."%char))
    (get_nanopb_type_name proto_package
       (Py.last_item (Py.split_on "."%char type_name))) = true /\
  get_nanopb_type_name "" (Py.last_item (Py.split_on "."%char type_name))
    = Py.last_item (Py.split_on "."%char type_name).
Proof.
  split; [|reflexivity].
  unfold get_nanopb_type_name. destruct (negb (Py.truthy proto_package)).
  - apply last_item_no_sep.
  - rewrite !all_chars_app. rewrite (replace_dots proto_package).
    now rewrite (last_item_no_sep "."%char type_name).
Qed.

End NanopbNames.

Section HeaderKeys.
Import Descriptor GenServerNanopb.

Lemma zenoh_key_of_returns k msg : exists o, zenoh_key_of k msg = Py.Return o.
Proof.
  unfold zenoh_key_of.
  destruct (Util.get_option_value (msg_options msg) k) as [o|e] eqn:H; [now exists o|].
  apply scan_raises in H as Hcases.
  pose proof (get_option_value_terminates (msg_options msg) k) as Ht.
  unfold Py.terminates in Ht. rewrite H in Ht.
  destruct Hcases as [-> | [-> | [-> | ->]]]; [now exists None .. | congruence].
Qed.

Lemma emit_defines_returns package k msgs :
  exists ls, emit_defines package k msgs = Py.Return ls.
Proof.
  induction msgs as [|m ms [ls IH]]; [now exists []|].
  cbn [emit_defines]. destruct (zenoh_key_of_returns k m) as [o ->].
  cbn [Py.bind]. rewrite IH. cbn [Py.bind]. eauto.
Qed.

Lemma any_zenoh_key_raises k msgs1 :
  forall m msgs2 e,
    (forall x, In x msgs1 ->
       exists o, Util.get_option_value (msg_options x) k = Py.Return o
                 /\ Py.truthy_opt o = false) ->
    Util.get_option_value (msg_options m) k = Py.Raise e ->
    any_zenoh_key k (msgs1 ++ m :: msgs2) = Py.Raise e.
Proof.
  induction msgs1 as [|x xs IH]; intros m msgs2 e Hbefore Hraise.
  - cbn [app any_zenoh_key]. now rewrite Hraise.
  - cbn [app any_zenoh_key].
    destruct (Hbefore x (or_introl eq_refl)) as (o & -> & Ho). cbn [Py.bind]. rewrite Ho.
    apply IH; [|exact Hraise]. intros y Hy. apply Hbefore. now right.
Qed.

(** X16.  The [try ... except Exception] of the header guards the loop that
    writes the [#define] lines, which therefore never raises; the [any(...)]
    that follows repeats the lookup without a guard.  So when the options
    of a message cannot be read and no message before it carries a key,
    the header generation raises all the same. *)
Theorem header_key_guard_is_bypassed (request : CodeGeneratorRequest)
    (proto_file : FileDescriptorProto) :
  (exists defines,
     emit_defines (package proto_file) (Util.find_zenoh_key request)
       (message_type proto_file) = Py.Return defines) /\
  (forall msgs1 msg msgs2 e,
     message_type proto_file = msgs1 ++ msg :: msgs2 ->
     (forall x, In x msgs1 ->
        exists o, Util.get_option_value (msg_options x) (Util.find_zenoh_key request)
                  = Py.Return o /\ Py.truthy_opt o = false) ->
     Util.get_option_value (msg_options msg) (Util.find_zenoh_key request) = Py.Raise e ->
     emit_zenoh_keys request proto_file = Py.Raise e).
Proof.
  split; [apply emit_defines_returns|].
  intros msgs1 msg msgs2 e Hmsgs Hbefore Hraise. unfold emit_zenoh_keys.
  destruct (emit_defines_returns (package proto_file) (Util.find_zenoh_key request)
              (message_type proto_file)) as [ls ->].
  cbn [Py.bind]. rewrite Hmsgs.
  now rewrite (any_zenoh_key_raises _ msgs1 msg msgs2 e Hbefore Hraise).
Qed.

End HeaderKeys.

Section PartialRead.
Import GenServerNanopb.

Variables (fs : FileSystem) (proto_file_name : string) (proto_paths : list string).

(** X14.  A sidecar whose reading fails after some lines: the names registered
    by the lines already read are kept (the registry is not emptied), and
    one warning is printed. *)
Theorem sidecar_partial_read (path msg : string) (file : File) :
  find_options_file fs proto_file_name proto_paths = Some path ->
  fs path = Some file ->
  read_error file = Some msg ->
  exists registry,
    parse_options_file fs proto_file_name proto_paths
      = Py.Return (registry, [warning (Py.Exception "OSError" msg)]) /\
    (forall m, m ∈ registry <->
               exists line, In line (file_lines file) /\ pointer_message line = Some m).
Proof.
  intros Hfound Hfile Herr.
  rewrite (parse_options_file_found _ _ _ _ _ Hfound Hfile), Herr.
  eexists. split; [reflexivity|].
  intros m. rewrite read_lines_elem. split; [intros [H|H]; [set_solver | exact H] | now right].
Qed.

End PartialRead.

Lemma sidecar_partial_read_witness :
  exists registry,
    GenServerNanopb.parse_options_file Cases.failing_file_system "service.proto" ["."]
      = Py.Return (registry, ["Warning: Could not read .options file: Input/output error"]) /\
    "EchoRequestMalloc" ∈ registry.
Proof.
  destruct (sidecar_partial_read Cases.failing_file_system "service.proto" ["."]
              "./service.options" "Input/output error"
              {| GenServerNanopb.file_lines :=
                   ["practice.rpc.EchoRequestMalloc.msg type:FT_POINTER" +:+ Py.lf];
                 GenServerNanopb.read_error := Some "Input/output error" |}
              eq_refl eq_refl eq_refl) as (registry & Hparsed & Hmem).
  exists registry. split; [exact Hparsed|].
  apply Hmem. eexists. split; [left; reflexivity | reflexivity].
Defined.

Lemma header_key_guard_is_bypassed_witness :
  (exists defines,
     GenServerNanopb.emit_defines "practice.rpc" 50001
       (Descriptor.message_type Cases.broken_proto) = Py.Return defines) /\
  GenServerNanopb.emit_zenoh_keys Cases.broken_request Cases.broken_proto
    = Py.Raise Py.IndexError.
Proof.
  split.
  - exact (proj1 (header_key_guard_is_bypassed Cases.broken_request Cases.broken_proto)).
  - refine (proj2 (header_key_guard_is_bypassed Cases.broken_request Cases.broken_proto)
              [Sample.message "Empty" []] Cases.broken_telemetry [] Py.IndexError
              eq_refl _ eq_refl).
    intros x [<- | []]. exists None. split; reflexivity.
Defined.

Section ProtoPathsFacts.
Import Descriptor ProtoPaths.

Lemma split_lstrip s : Py.split (Py.lstrip s) = Py.split s.
Proof.
  induction s as [|c s IH]; [reflexivity|].
  cbn [Py.lstrip]. destruct (Py.is_space c) eqn:Hc; [|reflexivity].
  rewrite IH. cbn [Py.split]. now rewrite Hc.
Qed.

Lemma starts_word_rstrip s : Py.starts_word (Py.rstrip s) = Py.starts_word s.
Proof.
  destruct s as [|c s]; [reflexivity|]. cbn [Py.rstrip Py.starts_word].
  destruct (Py.is_space c) eqn:Hc; cbn [andb]; [|cbn; now rewrite Hc].
  destruct (Py.truthy (Py.rstrip s)); cbn; [now rewrite Hc | reflexivity].
Qed.

Lemma split_rstrip s : Py.split (Py.rstrip s) = Py.split s.
Proof.
  induction s as [|c s IH]; [reflexivity|].
  cbn [Py.rstrip]. destruct (Py.is_space c) eqn:Hc; cbn [andb].
  - destruct (Py.truthy (Py.rstrip s)) eqn:Ht; cbn [negb].
    + cbn [Py.split]. now rewrite Hc.
    + cbn [Py.split]. rewrite Hc, <- IH. now destruct (Py.rstrip s).
  - cbn [Py.split]. now rewrite Hc, starts_word_rstrip, IH.
Qed.

Lemma split_strip s : Py.split (Py.strip s) = Py.split s.
Proof. unfold Py.strip. now rewrite split_rstrip, split_lstrip. Qed.

Lemma proto_paths_tokens request :
  proto_paths request = scan_parts None (Py.split (parameter request)) [] ++ ["."].
Proof.
  unfold proto_paths. f_equal.
  destruct (parameter request) as [|c s] eqn:Hp; [reflexivity|]. cbn [Py.truthy].
  rewrite <- (split_strip (String c s)).
  now destruct (Py.strip (String c s)).
Qed.

Lemma split_truthy s : Forall (fun t => Py.truthy t = true) (Py.split s).
Proof.
  induction s as [|c s IH]; [constructor|].
  cbn [Py.split]. destruct (Py.is_space c); [exact IH|].
  destruct (Py.starts_word s).
  - destruct (Py.split s) as [|h t]; [repeat constructor|].
    apply Forall_cons in IH as [_ Ht]. now constructor.
  - now constructor.
Qed.

Lemma scan_parts_truthy parts :
  forall previous acc,
    Forall (fun t => Py.truthy t = true) parts ->
    Forall (fun t => Py.truthy t = true) acc ->
    Forall (fun t => Py.truthy t = true) (scan_parts previous parts acc).
Proof.
  induction parts as [|part rest IH]; intros previous acc Hparts Hacc; [exact Hacc|].
  apply Forall_cons in Hparts as [Hpart Hrest].
  cbn [scan_parts]. apply IH; [exact Hrest|].
  destruct (Py.startswith part "-I").
  - set (path := if Py.startswith (from_index 2 part) "=" then _ else _).
    destruct (Py.truthy path) eqn:Ht; [|exact Hacc].
    apply Forall_app. split; [exact Hacc|]. now repeat constructor.
  - destruct (match previous with Some b => String.eqb b "-I" | None => false end);
      [|exact Hacc].
    apply Forall_app. split; [exact Hacc|]. now repeat constructor.
Qed.

(** X12.  The include paths handed to the search for the sidecar are never
    empty, whatever the parameter of the request, and the current
    directory comes last. *)
Theorem proto_paths_never_empty (request : CodeGeneratorRequest) :
  Forall (fun path => Py.truthy path = true) (proto_paths request) /\
  last (proto_paths request) = Some "." /\
  (Py.split (parameter request) = [] -> proto_paths request = ["."]).
Proof.
  rewrite proto_paths_tokens. split; [|split].
  - apply Forall_app. split; [|now repeat constructor].
    apply scan_parts_truthy; [apply split_truthy | constructor].
  - apply last_snoc.
  - now intros ->.
Qed.










End ProtoPathsFacts.


Section RegistrationFacts.
Import Descriptor Registration.

Variable accepts : string -> bool.



End RegistrationFacts.

Section SidecarToHandler.
Import Descriptor Cpp GenServerNanopb.

Variables (fs : FileSystem) (proto_paths : list string) (proto_file : FileDescriptorProto).
Variables (service : ServiceDescriptorProto) (method : MethodDescriptorProto).




End SidecarToHandler.


(** ** The subscriber clients *)

Section Subscribers.
Import ZenohSubscriberClient.

Variable undeclare : Subscriber -> Py.result unit.

Lemma dict_get_None d key : dict_get d key = None <-> key ∉ keys d.
Proof.
  induction d as [|[k v] d IH]; cbn [dict_get keys map fst].
  - split; [intros _; apply not_elem_of_nil | reflexivity].
  - rewrite not_elem_of_cons. destruct (String.eqb k key) eqn:Hk.
    + apply String.eqb_eq in Hk. split; [discriminate | intros [H _]; congruence].
    + apply String.eqb_neq in Hk. rewrite IH. unfold keys. split; [now split; [congruence|] | tauto].
Qed.

Lemma dict_set_fresh d key value :
  key ∉ keys d -> dict_set d key value = d ++ [(key, value)].
Proof.
  induction d as [|[k v] d IH]; [reflexivity|].
  cbn [keys map fst dict_set app]. rewrite not_elem_of_cons. intros [Hne Hd].
  apply not_eq_sym, String.eqb_neq in Hne. rewrite Hne. f_equal. now apply IH.
Qed.

Lemma dict_get_middle d key value rest :
  key ∉ keys d -> dict_get (d ++ (key, value) :: rest) key = Some value.
Proof.
  induction d as [|[k v] d IH]; cbn [keys map fst dict_get app].
  - now rewrite String.eqb_refl.
  - rewrite not_elem_of_cons. intros [Hne Hd].
    apply not_eq_sym, String.eqb_neq in Hne. rewrite Hne. now apply IH.
Qed.

Lemma dict_del_middle d key value rest :
  key ∉ keys d -> dict_del (d ++ (key, value) :: rest) key = d ++ rest.
Proof.
  induction d as [|[k v] d IH]; cbn [keys map fst dict_del app].
  - now rewrite String.eqb_refl.
  - rewrite not_elem_of_cons. intros [Hne Hd].
    apply not_eq_sym, String.eqb_neq in Hne. rewrite Hne. f_equal. now apply IH.
Qed.

Lemma dict_get_set_other d key value other :
  other <> key -> dict_get (dict_set d key value) other = dict_get d other.
Proof.
  intros Hne. induction d as [|[k v] d IH]; cbn [dict_set dict_get].
  - apply not_eq_sym, String.eqb_neq in Hne. now rewrite Hne.
  - destruct (String.eqb k key) eqn:Hk; cbn [dict_get].
    + apply String.eqb_eq in Hk. subst k.
      apply not_eq_sym, String.eqb_neq in Hne. now rewrite Hne.
    + now rewrite IH.
Qed.

(** X18.  The [id] of a new subscriber differs from those of the subscribers
    the dict holds, which are alive.  Then a subscription is stored under
    the text of the [id] of its subscriber and leaves the other entries
    alone; unsubscribing with the
    id returned undeclares that subscriber and restores the dict.  An id
    that is not in the dict undeclares nothing and raises nothing. *)
Theorem subscribe_unsubscribe_round_trip (d : dict) (key_expr : string) (address : Z) :
  str address ∉ keys d ->
  undeclare {| ident := address; declared_on := key_expr |} = Py.Return tt ->
  exists d',
    subscribe d key_expr (Py.Return address) = Py.Return (d', str address) /\
    dict_get d' (str address) = Some {| ident := address; declared_on := key_expr |} /\
    (forall other, other <> str address -> dict_get d' other = dict_get d other) /\
    unsubscribe undeclare d' (str address)
    = {| subscribers := d;
         undeclared := [{| ident := address; declared_on := key_expr |}];
         raised := None |} /\
    unsubscribe undeclare d (str address)
    = {| subscribers := d; undeclared := []; raised := None |}.
Proof.
  intros Hfresh Hok. eexists. split; [reflexivity|]. cbn [ident].
  rewrite (dict_set_fresh _ _ _ Hfresh). split; [|split; [|split]].
  - now apply dict_get_middle.
  - intros other Hne. rewrite <- (dict_set_fresh _ _ _ Hfresh).
    now apply dict_get_set_other.
  - unfold unsubscribe. rewrite (dict_get_middle _ _ _ _ Hfresh), Hok.
    now rewrite (dict_del_middle _ _ _ _ Hfresh), app_nil_r.
  - unfold unsubscribe. now rewrite (proj2 (dict_get_None d (str address)) Hfresh).
Qed.

Lemma undeclare_each_ok ss :
  Forall (fun s => undeclare s = Py.Return tt) ss ->
  undeclare_each undeclare ss = (ss, None).
Proof.
  induction 1 as [|s ss Hs Hss IH]; [reflexivity|].
  cbn [undeclare_each]. now rewrite Hs, IH.
Qed.

Lemma undeclare_each_raises ss1 :
  forall s ss2 e,
    Forall (fun s => undeclare s = Py.Return tt) ss1 ->
    undeclare s = Py.Raise e ->
    undeclare_each undeclare (ss1 ++ s :: ss2) = (ss1, Some e).
Proof.
  induction ss1 as [|s1 ss1 IH]; intros s ss2 e Hss Hs.
  - cbn [app undeclare_each]. now rewrite Hs.
  - apply Forall_cons in Hss as [H1 Hss]. cbn [app undeclare_each].
    now rewrite H1, (IH s ss2 e Hss Hs).
Qed.

(** X19.  [unsubscribe_all] undeclares every subscriber once, in insertion
    order, and empties the dict.  When an [undeclare] raises, the
    exception escapes and the dict is left as it was: it still holds the
    subscribers that were undeclared before the failure. *)
Theorem unsubscribe_all_outcome (d : dict) :
  (Forall (fun s => undeclare s = Py.Return tt) (values d) ->
   unsubscribe_all undeclare d
   = {| subscribers := []; undeclared := values d; raised := None |}) /\
  (forall d1 key s d2 e,
     d = d1 ++ (key, s) :: d2 ->
     Forall (fun s => undeclare s = Py.Return tt) (values d1) ->
     undeclare s = Py.Raise e ->
     unsubscribe_all undeclare d
     = {| subscribers := d; undeclared := values d1; raised := Some e |}).
Proof.
  split.
  - intros Hok. unfold unsubscribe_all. now rewrite (undeclare_each_ok _ Hok).
  - intros d1 key s d2 e -> Hok Hraise. unfold unsubscribe_all, values.
    rewrite map_app. cbn [map snd].
    now rewrite (undeclare_each_raises _ s _ e Hok Hraise).
Qed.

End Subscribers.

Lemma subscribe_unsubscribe_round_trip_witness :
  exists d,
    ZenohSubscriberClient.subscribe Cases.log_subscription "dev1/telemetry/sensor"
      (Py.Return 8) = Py.Return (d, "8") /\
    ZenohSubscriberClient.unsubscribe Cases.undeclare_ok d "8"
    = {| ZenohSubscriberClient.subscribers := Cases.log_subscription;
         ZenohSubscriberClient.undeclared :=
           [{| ZenohSubscriberClient.ident := 8;
               ZenohSubscriberClient.declared_on := "dev1/telemetry/sensor" |}];
         ZenohSubscriberClient.raised := None |}.
Proof.
  destruct (subscribe_unsubscribe_round_trip Cases.undeclare_ok Cases.log_subscription
              "dev1/telemetry/sensor" 8) as (d & Hsub & _ & _ & Hunsub & _).
  - apply (bool_decide_unpack _). vm_compute. exact I.
  - reflexivity.
  - exists d. split; [exact Hsub | exact Hunsub].
Defined.

Lemma unsubscribe_all_outcome_witness :
  ZenohSubscriberClient.unsubscribe_all Cases.undeclare_ok Cases.log_subscription
  = {| ZenohSubscriberClient.subscribers := [];
       ZenohSubscriberClient.undeclared :=
         ZenohSubscriberClient.values Cases.log_subscription;
       ZenohSubscriberClient.raised := None |} /\
  ZenohSubscriberClient.unsubscribe_all
    (fun _ => Py.Raise (Py.Exception "ZError" "session closed")) Cases.log_subscription
  = {| ZenohSubscriberClient.subscribers := Cases.log_subscription;
       ZenohSubscriberClient.undeclared := [];
       ZenohSubscriberClient.raised := Some (Py.Exception "ZError" "session closed") |}.
Proof.
  split.
  - refine (proj1 (unsubscribe_all_outcome Cases.undeclare_ok Cases.log_subscription) _).
    repeat constructor.
  - refine (proj2 (unsubscribe_all_outcome _ Cases.log_subscription)
              [] "7" _ [] _ eq_refl _ eq_refl).
    constructor.
Defined.

Section TelemetrySubscriptions.
Import ZenohSubscriberClient TelemetrySubscriber.

Variable undeclare : Subscriber -> Py.result unit.

Let entry (topic : string * Z) : string * Subscriber :=
  (str (snd topic), subscriber_of topic).

Lemma subscribe_each_fresh topics :
  forall d sub_ids,
    NoDup (keys d ++ map (fun topic => str (snd topic)) topics) ->
    subscribe_each d sub_ids topics
    = Py.Return (d ++ map entry topics,
                 sub_ids ++ map (fun topic => str (snd topic)) topics).
Proof.
  induction topics as [|[key address] rest IH]; intros d sub_ids Hnodup.
  - cbn. now rewrite !app_nil_r.
  - cbn [subscribe_each map snd]. cbn [map snd] in Hnodup.
    unfold subscribe, ZenohSubscriberClient.subscribe. cbn [Py.bind ident].
    assert (Hfresh : str address ∉ keys d).
    { apply NoDup_app in Hnodup as (_ & Hdisj & _). intros Hin.
      apply (Hdisj _ Hin). apply elem_of_cons. now left. }
    rewrite (dict_set_fresh _ _ _ Hfresh).
    rewrite IH.
    + change (entry (key, address))
        with (str address, {| ident := address; declared_on := key |}).
      now rewrite <- !app_assoc.
    + unfold keys in *. rewrite map_app. cbn [map fst]. rewrite <- app_assoc. exact Hnodup.
Qed.

Lemma unsubscribe_each_own topics :
  forall d,
    NoDup (keys d ++ map (fun topic => str (snd topic)) topics) ->
    Forall (fun topic => undeclare (subscriber_of topic) = Py.Return tt) topics ->
    unsubscribe_each undeclare (d ++ map entry topics)
      (map (fun topic => str (snd topic)) topics)
    = {| subscribers := d; undeclared := map subscriber_of topics; raised := None |}.
Proof.
  induction topics as [|topic rest IH]; intros d Hnodup Hok.
  - cbn. now rewrite app_nil_r.
  - apply Forall_cons in Hok as [Hok1 Hok].
    cbn [map unsubscribe_each]. unfold unsubscribe.
    assert (Hfresh : str (snd topic) ∉ keys d).
    { apply NoDup_app in Hnodup as (_ & Hdisj & _). intros Hin.
      apply (Hdisj _ Hin). apply elem_of_cons. now left. }
    change (entry topic) with (str (snd topic), subscriber_of topic).
    rewrite (dict_get_middle _ _ _ _ Hfresh), Hok1. cbn [raised subscribers undeclared].
    rewrite (dict_del_middle _ _ _ _ Hfresh), IH; [reflexivity | | exact Hok].
    cbn [map] in Hnodup. apply NoDup_app in Hnodup as (Hd & Hdisj & Hrest).
    apply NoDup_app. split; [exact Hd|]. split.
    + intros x Hx Hin. apply (Hdisj x Hx). apply elem_of_cons. now right.
    + now apply NoDup_cons in Hrest as [_ Hrest].
Qed.

(** X22.  The [unsubscribe_all] of the generated [TelemetrySubscriber] takes
    back its own subscriptions only: after any sequence of [subscribe_*]
    calls on a sub-client that already holds other subscriptions, it
    undeclares the subscribers of these calls, in order, and leaves the
    sub-client as it was before them. *)
Theorem telemetry_unsubscribe_all_own_only (d : dict) (topics : list (string * Z)) :
  NoDup (keys d ++ map (fun topic => str (snd topic)) topics) ->
  Forall (fun topic => undeclare (subscriber_of topic) = Py.Return tt) topics ->
  exists d' sub_ids,
    subscribe_each d [] topics = Py.Return (d', sub_ids) /\
    length sub_ids = length topics /\
    unsubscribe_all undeclare d' sub_ids
    = ({| subscribers := d; undeclared := map subscriber_of topics; raised := None |}, []).
Proof.
  intros Hnodup Hok. eexists _, _. split; [now apply subscribe_each_fresh|].
  split; [cbn; now rewrite length_map|].
  unfold unsubscribe_all. cbn [app].
  now rewrite (unsubscribe_each_own topics d Hnodup Hok).
Qed.

End TelemetrySubscriptions.

Lemma pretty_N_go_truthy x :
  forall s, Py.truthy s = true -> Py.truthy (pretty_N_go x s) = true.
Proof.
  induction x as [x IH] using (well_founded_induction N.lt_wf_0). intros s Hs.
  destruct (decide (x = 0%N)) as [->|Hx]; [now rewrite pretty_N_go_0|].
  rewrite pretty_N_go_step by lia. apply IH; [|reflexivity].
  apply N.div_lt; lia.
Qed.

Lemma str_truthy n : Py.truthy (ZenohSubscriberClient.str n) = true.
Proof.
  assert (HN : forall x : N, Py.truthy (pretty x) = true).
  { intros x. unfold pretty, pretty_N. destruct (decide (x = 0%N)); [reflexivity|].
    rewrite pretty_N_go_step by lia. now apply pretty_N_go_truthy. }
  unfold ZenohSubscriberClient.str, pretty, pretty_Z.
  destruct n as [|p|p]; [reflexivity | apply (HN (Npos p)) | reflexivity].
Qed.

Section Logs.
Import ZenohSubscriberClient LogSubscriber.

Variable undeclare : Subscriber -> Py.result unit.

(** X20.  A second [subscribe] on a [LogSubscriber] forgets the id of the
    first: [unsubscribe] then takes back the second subscription only,
    the first one stays declared in the sub-client, and a further
    [unsubscribe] does nothing. *)
Theorem log_subscribe_twice_leaks (d : dict) (device : string) (first second : Z) :
  str first ∉ keys d ->
  str second ∉ keys d ->
  first <> second ->
  undeclare {| ident := second; declared_on := device +:+ "/log" |} = Py.Return tt ->
  exists d1 self1 d2 self2 self3,
    subscribe d {| device_id := device; sub_id := None |} (Py.Return first)
      = Py.Return (d1, self1) /\
    subscribe d1 self1 (Py.Return second) = Py.Return (d2, self2) /\
    unsubscribe undeclare d2 self2
      = ({| subscribers := d1;
            undeclared := [{| ident := second; declared_on := device +:+ "/log" |}];
            raised := None |}, self3) /\
    dict_get d1 (str first)
      = Some {| ident := first; declared_on := device +:+ "/log" |} /\
    unsubscribe undeclare d1 self3
      = ({| subscribers := d1; undeclared := []; raised := None |}, self3).
Proof.
  intros Hfirst Hsecond Hne Hok.
  assert (Hstr : str second <> str first).
  { intros H. apply Hne. symmetry. exact (pretty_Z_inj _ _ H). }
  assert (Hfresh : str second ∉ keys (d ++ [(str first,
                     {| ident := first; declared_on := device +:+ "/log" |})])).
  { unfold keys. rewrite map_app. cbn [map fst]. intros Hin.
    apply elem_of_app in Hin as [Hin | Hin]; [now apply Hsecond|].
    apply list_elem_of_singleton in Hin. now apply Hstr. }
  eexists _, _, _, _, _. split; [|split; [|split; [|split]]].
  - unfold subscribe, ZenohSubscriberClient.subscribe, key_expr.
    cbn [Py.bind ident device_id]. rewrite (dict_set_fresh _ _ _ Hfirst). reflexivity.
  - unfold subscribe, ZenohSubscriberClient.subscribe, key_expr.
    cbn [Py.bind ident device_id]. rewrite (dict_set_fresh _ _ _ Hfresh). reflexivity.
  - unfold unsubscribe. cbn [sub_id Py.truthy_opt].
    rewrite (str_truthy second). cbn [default]. unfold ZenohSubscriberClient.unsubscribe.
    rewrite (dict_get_middle _ _ _ _ Hfresh), Hok.
    rewrite (dict_del_middle _ _ _ _ Hfresh), app_nil_r. reflexivity.
  - now apply dict_get_middle.
  - reflexivity.
Qed.

(** X21.  The handler of the log subscription lets no exception derived from
    [Exception] escape: bytes that are not UTF-8 never reach the callback,
    and a failure of the callback itself is logged under the same
    "Failed to decode" message. *)
Theorem log_handler_contains_failures (callback : string -> Py.result unit) (data : list Z) :
  (Py.utf8_valid data = false ->
   handler callback data
   = Py.Return ["Failed to decode log message: " +:+ Py.str_of Py.UnicodeDecodeError]) /\
  (Py.utf8_valid data = true ->
   handler callback data
   = match callback (Py.text_of_bytes data) with
     | Py.Return _ => Py.Return []
     | Py.Raise e =>
         if Py.is_Exception e
         then Py.Return ["Failed to decode log message: " +:+ Py.str_of e]
         else Py.Raise e
     end) /\
  (forall e, handler callback data = Py.Raise e -> Py.is_Exception e = false).
Proof.
  unfold handler, Py.decode_utf8. split; [|split].
  - now intros ->.
  - now intros ->.
  - intros e. destruct (Py.utf8_valid data); cbn [Py.bind].
    + destruct (callback _) as [u|e']; [discriminate|].
      destruct (Py.is_Exception e') eqn:He'; [discriminate|]. now intros [= <-].
    + discriminate.
Qed.

End Logs.

Lemma log_subscribe_twice_leaks_witness :
  exists d1 self1 d2 self2 self3,
    LogSubscriber.subscribe []
      {| LogSubscriber.device_id := "dev1"; LogSubscriber.sub_id := None |} (Py.Return 1)
      = Py.Return (d1, self1) /\
    LogSubscriber.subscribe d1 self1 (Py.Return 2) = Py.Return (d2, self2) /\
    LogSubscriber.unsubscribe Cases.undeclare_ok d2 self2
      = ({| ZenohSubscriberClient.subscribers := d1;
            ZenohSubscriberClient.undeclared :=
              [{| ZenohSubscriberClient.ident := 2;
                  ZenohSubscriberClient.declared_on := "dev1/log" |}];
            ZenohSubscriberClient.raised := None |}, self3) /\
    ZenohSubscriberClient.dict_get d1 "1"
      = Some {| ZenohSubscriberClient.ident := 1;
                ZenohSubscriberClient.declared_on := "dev1/log" |}.
Proof.
  destruct (log_subscribe_twice_leaks Cases.undeclare_ok [] "dev1" 1 2)
    as (d1 & self1 & d2 & self2 & self3 & H1 & H2 & H3 & H4 & _).
  - apply (bool_decide_unpack _). vm_compute. exact I.
  - apply (bool_decide_unpack _). vm_compute. exact I.
  - lia.
  - reflexivity.
  - exists d1, self1, d2, self2, self3. repeat split; assumption.
Defined.

Lemma log_handler_contains_failures_witness :
  LogSubscriber.handler (fun _ => Py.Return tt) [0xC0; 0x80]
  = Py.Return ["Failed to decode log message: 'utf-8' codec can't decode bytes"].
Proof.
  exact (proj1 (log_handler_contains_failures (fun _ => Py.Return tt) [0xC0; 0x80]) eq_refl).
Defined.

Lemma telemetry_unsubscribe_all_own_only_witness :
  exists d sub_ids,
    TelemetrySubscriber.subscribe_each Cases.log_subscription []
      [("dev1/telemetry/sensor", 8); ("dev1/telemetry/link", 9)] = Py.Return (d, sub_ids) /\
    length sub_ids = 2%nat /\
    fst (TelemetrySubscriber.unsubscribe_all Cases.undeclare_ok d sub_ids)
    = {| ZenohSubscriberClient.subscribers := Cases.log_subscription;
         ZenohSubscriberClient.undeclared :=
           [{| ZenohSubscriberClient.ident := 8;
               ZenohSubscriberClient.declared_on := "dev1/telemetry/sensor" |};
            {| ZenohSubscriberClient.ident := 9;
               ZenohSubscriberClient.declared_on := "dev1/telemetry/link" |}];
         ZenohSubscriberClient.raised := None |}.
Proof.
  destruct (telemetry_unsubscribe_all_own_only Cases.undeclare_ok Cases.log_subscription
              [("dev1/telemetry/sensor", 8); ("dev1/telemetry/link", 9)])
    as (d & sub_ids & Hsub & Hlen & Hall).
  - apply (bool_decide_unpack _). vm_compute. exact I.
  - repeat constructor.
  - exists d, sub_ids. split; [exact Hsub|]. split; [exact Hlen|]. now rewrite Hall.
Defined.

(** ** The page emitter *)

Section Page.
Import Descriptor ZenohRpcClient PyCode GenClientPython.

Variable msg_map : gmap string DescriptorProto.
Variables (service : ServiceDescriptorProto) (method : MethodDescriptorProto).
Variable e : env.



End Page.


(** ** The build script *)

Section BuildFacts.
Import Build.

Ltac run_main args e :=
  unfold main in *; destruct args as [[] [] [] []];
  cbn [proto_only build_only flash_only erase_nvs negb] in *;
  destruct (app_exists e) eqn:?; cbn [negb] in *;
  destruct (succeeds e GenerateProto) eqn:?, (succeeds e BuildApp) eqn:?,
           (succeeds e EraseNvs) eqn:?, (succeeds e Flash) eqn:?,
           (succeeds e Monitor) eqn:?;
  cbn [negb app fst snd removelast] in *.

(** X24.  The exit code is 0 exactly when the application directory exists and
    every step that ran succeeded; a step runs only when all the steps
    before it succeeded; the steps run in the order generate, build,
    erase, flash, monitor. *)
Theorem main_exit_code (args : Args) (e : env) :
  (snd (main args e) = 0 <->
   app_exists e = true /\ Forall (fun s => succeeds e s = true) (fst (main args e))) /\
  Forall (fun s => succeeds e s = true) (removelast (fst (main args e))) /\
  sublist (fst (main args e)) [GenerateProto; BuildApp; EraseNvs; Flash; Monitor].
Proof.
  split; [|split].
  - run_main args e;
      (split;
       [ intros H;
         first [ discriminate H
               | split; [reflexivity | repeat constructor; assumption] ]
       | intros [Ha Hf];
         first [ discriminate Ha | reflexivity
               | repeat match goal with
                        | H : Forall _ (_ :: _) |- _ => apply Forall_cons in H as [? H]
                        end; congruence ] ]).
  - run_main args e; repeat constructor; assumption.
  - run_main args e;
      repeat first [apply sublist_nil_l | apply sublist_skip | apply sublist_cons].
Qed.

(** X25.  The device is flashed only when flashing was not switched off and
    everything asked for before it succeeded: the generation and the
    build unless --flash-only, the erasure if --erase-nvs.  With
    --flash-only nothing is generated or built, also when --proto-only is
    given with it. *)
Theorem main_flashes_only_after_success (args : Args) (e : env) :
  (In Flash (fst (main args e)) ->
   build_only args = false /\
   (flash_only args = false ->
    proto_only args = false /\ succeeds e GenerateProto = true
    /\ succeeds e BuildApp = true) /\
   (erase_nvs args = true -> succeeds e EraseNvs = true)) /\
  (flash_only args = true ->
   ~ In GenerateProto (fst (main args e)) /\ ~ In BuildApp (fst (main args e))) /\
  (build_only args = true ->
   ~ In Flash (fst (main args e)) /\ ~ In Monitor (fst (main args e))).
Proof.
  split; [|split].
  - run_main args e; cbn [In]; intros H;
      repeat match goal with
             | H : _ \/ _ |- _ => destruct H as [H|H]
             | H : False |- _ => destruct H
             end;
      first [ discriminate
            | split; [reflexivity|];
              split; [intros ?; first [discriminate | auto]
                     | intros ?; first [discriminate | auto]] ].
  - run_main args e; intros H; try discriminate H; cbn [In];
      split; intros G;
      repeat match goal with
             | H : _ \/ _ |- _ => destruct H as [H|H]
             | H : False |- _ => destruct H
             end; discriminate.
  - run_main args e; intros H; try discriminate H; cbn [In];
      split; intros G;
      repeat match goal with
             | H : _ \/ _ |- _ => destruct H as [H|H]
             | H : False |- _ => destruct H
             end; discriminate.
Qed.

End BuildFacts.

Lemma main_flashes_only_after_success_witness :
  fst (Build.main
         {| Build.proto_only := true; Build.build_only := false;
            Build.flash_only := true; Build.erase_nvs := false |}
         {| Build.app_exists := true; Build.succeeds := fun _ => true |})
  = [Build.Flash; Build.Monitor] /\
  ~ In Build.GenerateProto
      (fst (Build.main
              {| Build.proto_only := true; Build.build_only := false;
                 Build.flash_only := true; Build.erase_nvs := false |}
              {| Build.app_exists := true; Build.succeeds := fun _ => true |})).
Proof.
  split; [reflexivity|].
  exact (proj1 (proj1 (proj2 (main_flashes_only_after_success
                  {| Build.proto_only := true; Build.build_only := false;
                     Build.flash_only := true; Build.erase_nvs := false |}
                  {| Build.app_exists := true; Build.succeeds := fun _ => true |}))
                eq_refl)).
Defined.
